(** * TradingAgents-CN: the Tushare data provider and the DeepSeek chat adapters

    A shallow embedding of

    - [tradingagents/dataflows/tushare_utils.py]: [TushareProvider] with
      [__init__], [get_stock_list], [get_stock_daily], [get_stock_info],
      [get_financial_data], [_normalize_symbol] and [search_stocks], and the
      module's [get_tushare_provider], [get_china_stock_data_tushare] and
      [get_china_stock_info_tushare];
    - [tradingagents/llm_adapters/deepseek_adapter.py]: [ChatDeepSeek] with
      [__init__], [_generate], [_estimate_input_tokens],
      [_estimate_output_tokens] and [invoke];
    - [tradingagents/llm/deepseek_adapter.py]: [DeepSeekAdapter] with
      [__init__], [_init_llm], [chat], [get_model_info] and
      [test_connection].

    Python text is a list of code points, a dict is a [gmap], an exception is
    a value of an error monad over an explicit world that records what the
    code asked of its collaborators (remote API, cache, usage tracker, clock,
    environment, logger).  Everything the collaborators answer is a
    parameter. *)

From Stdlib Require Import List NArith ZArith QArith Lia Bool Strings.Byte.
From stdpp Require Import base numbers option list gmap.
Import ListNotations.

(** ** Python text *)

Module PyStr.

(** A [str] is a sequence of Unicode code points; [len] counts them. *)
Definition char := N.
Definition str := list char.

(** String literals of the source, for the ASCII range. *)
Inductive str_lit := LitNil | LitCons (c : N) (s : str_lit).

Fixpoint lit_of_bytes (bs : list Byte.byte) : option str_lit :=
  match bs with
  | [] => Some LitNil
  | b :: bs' =>
      let n := Byte.to_N b in
      if (n <? 128)%N then option_map (LitCons n) (lit_of_bytes bs') else None
  end.

Fixpoint bytes_of_lit (s : str_lit) : option (list Byte.byte) :=
  match s with
  | LitNil => Some []
  | LitCons c s' =>
      match Byte.of_N c, bytes_of_lit s' with
      | Some b, Some bs => if (c <? 128)%N then Some (b :: bs) else None
      | _, _ => None
      end
  end.

Declare Scope str_scope.
Delimit Scope str_scope with str.
Bind Scope str_scope with str.
#[warnings="-via-type-remapping,-via-type-mismatch"]
String Notation str lit_of_bytes bytes_of_lit
  (via str_lit mapping [[nil] => LitNil, [cons] => LitCons]) : str_scope.

(** [len(s)] *)
Definition len (s : str) : Z := Z.of_nat (length s).

(** [s.startswith(prefix)] *)
Fixpoint startswith (s prefix : str) : bool :=
  match prefix, s with
  | [], _ => true
  | _ :: _, [] => false
  | p :: prefix', c :: s' => (c =? p)%N && startswith s' prefix'
  end.

(** [sub in s] *)
Fixpoint str_in (sub s : str) : bool :=
  startswith s sub ||
  match s with
  | [] => false
  | _ :: s' => str_in sub s'
  end.

(** [s.replace(old, new)] for a non-empty [old]: the text is read from the
    left; where [old] starts its characters are skipped ([skip] counts the
    ones still to drop) and [new] is written instead, elsewhere the
    character is kept.  Occurrences are therefore the leftmost
    non-overlapping ones. *)
Fixpoint replace_from (skip : nat) (s old new : str) : str :=
  match s with
  | [] => []
  | c :: s' =>
      match skip with
      | S k => replace_from k s' old new
      | O =>
          if startswith s old
          then new ++ replace_from (length old - 1) s' old new
          else c :: replace_from 0 s' old new
      end
  end.

(** [s.replace(old, new)]; an empty [old] matches before every character
    and at the end. *)
Definition replace (s old new : str) : str :=
  match old with
  | [] => new ++ flat_map (fun c => c :: new) s
  | _ :: _ => replace_from 0 s old new
  end.

(** [c.isdigit()] for the ASCII digits. *)
Definition is_digit (c : char) : bool := ((48 <=? c) && (c <=? 57))%N.

(** The character of a decimal digit [0 <= d <= 9]. *)
Definition digit (d : Z) : char := Z.to_N (48 + d).

(** Decimal digits of a non-negative integer, most significant first. *)
Fixpoint digits (fuel : nat) (n : Z) : str :=
  match fuel with
  | O => [digit n]
  | S fuel' =>
      if (n <? 10)%Z then [digit n]
      else digits fuel' (n / 10) ++ [digit (n mod 10)]
  end.

(** [str(n)] for an [int]. *)
Definition str_of_int (n : Z) : str :=
  if (n <? 0)%Z then (45%N :: digits (Z.to_nat (- n)) (- n))
  else digits (Z.to_nat n) n.

End PyStr.
Export PyStr.
Open Scope str_scope.

(** ** Exceptions, effects and the clock *)

Module PyRuntime.

(** An exception object: an instance of a subclass of [Exception], which is
    what every [except Exception] clause of the source catches. *)
Record exn := Exn { exn_class : str; exn_message : str }.

(** What a call yields: a value, or a raised exception. *)
Inductive outcome (A : Type) := Return (a : A) | Raise (e : exn).
Arguments Return {A} a.
Arguments Raise {A} e.

(** A computation over a world [W]: the world collects what the code did
    to its collaborators, also when the computation ends by raising. *)
Definition M (W A : Type) : Type := W -> outcome A * W.

#[global] Instance M_ret {W} : MRet (M W) := fun A a w => (Return a, w).

#[global] Instance M_bind {W} : MBind (M W) := fun A B k c w =>
  match c w with
  | (Return a, w') => k a w'
  | (Raise e, w') => (Raise e, w')
  end.

(** [raise e] *)
Definition raise {W A} (e : exn) : M W A := fun w => (Raise e, w).

(** [try: body / except Exception as e: handler e] *)
Definition try_except {W A} (body : M W A) (handler : exn -> M W A) : M W A :=
  fun w =>
    match body w with
    | (Return a, w') => (Return a, w')
    | (Raise e, w') => handler e w'
    end.

(** The answer of a collaborator, taken as it comes. *)
Definition lift {W A} (o : outcome A) : M W A := fun w => (o, w).

(** A change of the world. *)
Definition tell {W} (f : W -> W) : M W unit := fun w => (Return tt, f w).

(** The world read. *)
Definition ask {W A} (f : W -> A) : M W A := fun w => (Return (f w), w).

(** *** [datetime], after CPython's [_pydatetime]

    A [datetime] is held by what [toordinal()] returns (day 1 is
    0001-01-01) and the microseconds since midnight. *)
Record datetime := { toordinal : Z; time_of_day : Z }.

Definition _MAXORDINAL : Z := 3652059.

Definition _DAYS_IN_MONTH (month : Z) : Z :=
  nth (Z.to_nat month) [-1; 31; 28; 31; 30; 31; 30; 31; 31; 30; 31; 30; 31]%Z 0%Z.

Definition _DAYS_BEFORE_MONTH (month : Z) : Z :=
  nth (Z.to_nat month)
      [-1; 0; 31; 59; 90; 120; 151; 181; 212; 243; 273; 304; 334]%Z 0%Z.

Definition _is_leap (year : Z) : bool :=
  ((year mod 4 =? 0) && (negb (year mod 100 =? 0) || (year mod 400 =? 0)))%Z.

Definition _days_before_year (year : Z) : Z :=
  let y := (year - 1)%Z in (y * 365 + y / 4 - y / 100 + y / 400)%Z.

Definition _days_before_month (year month : Z) : Z :=
  (_DAYS_BEFORE_MONTH month +
   (if (2 <? month) && _is_leap year then 1 else 0))%Z.

(** [date(year, month, day).toordinal()] *)
Definition _ymd2ord (year month day : Z) : Z :=
  (_days_before_year year + _days_before_month year month + day)%Z.

(** The month and the day of month of the day numbered [n] (from 0) in a
    year that is or is not leap. *)
Definition _month_day (n : Z) (leapyear : bool) : Z * Z :=
  let month := Z.shiftr (n + 50) 5 in
  let preceding :=
    (_DAYS_BEFORE_MONTH month +
     (if (2 <? month) && leapyear then 1 else 0))%Z in
  if (n <? preceding)%Z then
    let month := (month - 1)%Z in
    let preceding :=
      (preceding -
       (_DAYS_IN_MONTH month +
        (if (month =? 2) && leapyear then 1 else 0)))%Z in
    (month, (n - preceding + 1)%Z)
  else (month, (n - preceding + 1)%Z).

(** The year, month and day of an ordinal. *)
Definition _ord2ymd (n : Z) : Z * Z * Z :=
  let n := (n - 1)%Z in
  let n400 := (n / 146097)%Z in
  let n := (n mod 146097)%Z in
  let year := (n400 * 400 + 1)%Z in
  let n100 := (n / 36524)%Z in
  let n := (n mod 36524)%Z in
  let n4 := (n / 1461)%Z in
  let n := (n mod 1461)%Z in
  let n1 := (n / 365)%Z in
  let n := (n mod 365)%Z in
  let year := (year + n100 * 100 + n4 * 4 + n1)%Z in
  if ((n1 =? 4) || (n100 =? 4))%Z then ((year - 1)%Z, 12%Z, 31%Z)
  else
    let leapyear := ((n1 =? 3) && (negb (n4 =? 24) || (n100 =? 3)))%Z in
    let '(month, day) := _month_day n leapyear in
    (year, month, day).

(** [datetime(year, month, day)] at midnight. *)
Definition datetime_of_date (year month day : Z) : datetime :=
  {| toordinal := _ymd2ord year month day; time_of_day := 0 |}.

(** [dt - timedelta(days=days)]: the time of day stays, and a date outside
    [1 .. _MAXORDINAL] is an [OverflowError]. *)
Definition minus_days (dt : datetime) (days : Z) : outcome datetime :=
  let d := (toordinal dt - days)%Z in
  if ((0 <? d) && (d <=? _MAXORDINAL))%Z
  then Return {| toordinal := d; time_of_day := time_of_day dt |}
  else Raise (Exn "OverflowError" "date value out of range").

(** Two decimal digits, as [%m] and [%d] print a month and a day. *)
Definition two_digits (n : Z) : str :=
  if (n <? 10)%Z then "0" ++ str_of_int n else str_of_int n.

(** A date printed as [%Y%m%d]; [%Y] prints the year as it is, which is
    four digits from the year 1000 on. *)
Definition format_Ymd (date : Z * Z * Z) : str :=
  let '(year, month, day) := date in
  str_of_int year ++ two_digits month ++ two_digits day.

(** [dt.strftime('%Y%m%d')] *)
Definition strftime_Ymd (dt : datetime) : str :=
  format_Ymd (_ord2ymd (toordinal dt)).

End PyRuntime.
Export PyRuntime.

(** ** The Tushare provider *)

Module Tushare.

(** *** [_normalize_symbol] *)

(** [TushareProvider._normalize_symbol] (the method does not read [self];
    its [logger.info] lines are left out). *)
Definition _normalize_symbol (symbol : str) : str :=
  let symbol := replace (replace symbol "sh." "") "sz." "" in
  if str_in "." symbol then symbol
  else if startswith symbol "6" then symbol ++ ".SH"
  else if startswith symbol "0" || startswith symbol "3" then symbol ++ ".SZ"
  else if startswith symbol "8" then symbol ++ ".BJ"
  else symbol ++ ".SZ".

(** The exchange suffix that the spec's first-character rule gives to a code
    with leading character [c] ([None]: the code is empty). *)
Definition exchange_suffix (c : option char) : str :=
  match c with
  | Some 54%N => ".SH"
  | Some 48%N | Some 51%N => ".SZ"
  | Some 56%N => ".BJ"
  | _ => ".SZ"
  end.

(** The spec's suffix rule: a code with an exchange separator is canonical,
    any other code gets the suffix of its leading character. *)
Definition suffix_rule (code : str) : str :=
  if str_in "." code then code else code ++ exchange_suffix (head code).

(** The text with the occurrences of ["sh."] and then those of ["sz."]
    deleted. *)
Definition strip_prefixes (symbol : str) : str :=
  replace (replace symbol "sh." "") "sz." "".

(** *** Tables and records *)

(** A cell of a table or an entry of a returned dict. *)
Inductive value := VStr (s : str) | VNum (q : Q) | VNone.

(** A [pandas.DataFrame]: column labels and rows of cells. *)
Record DataFrame := { columns : list str; rows : list (list value) }.

(** [pd.DataFrame()] *)
Definition empty_frame : DataFrame := {| columns := []; rows := [] |}.

(** [df.empty]: some axis has length 0. *)
Definition empty (df : DataFrame) : bool :=
  match columns df, rows df with
  | _ :: _, _ :: _ => false
  | _, _ => true
  end.

(** A row under the column labels; a repeated label keeps its last cell. *)
Definition labelled (cols : list str) (row : list value) : gmap str value :=
  foldl (fun d kv => <[kv.1 := kv.2]> d) ∅ (zip cols row).

(** [df.to_dict('records')] *)
Definition to_dict_records (df : DataFrame) : list (gmap str value) :=
  map (labelled (columns df)) (rows df).

(** [df.to_dict('records') if df is not None and not df.empty else []] *)
Definition records_or_empty (df : option DataFrame) : list (gmap str value) :=
  match df with
  | Some df => if negb (empty df) then to_dict_records df else []
  | None => []
  end.

(** *** The collaborators *)

(** The calls the provider makes on [self.api]. *)
Inductive ApiCall :=
| Daily (ts_code start_date end_date : str)
| StockBasic (ts_code fields : str)
| BalanceSheet (ts_code period fields : str)
| Income (ts_code period fields : str)
| CashFlow (ts_code period fields : str).

(** [self.api]: what the remote market-data API answers to each call, a
    table, [None], or an exception. *)
Record TushareApi := {
  daily : str -> str -> str -> outcome (option DataFrame);
  stock_basic : str -> str -> outcome (option DataFrame);
  balancesheet : str -> str -> str -> outcome (option DataFrame);
  income : str -> str -> str -> outcome (option DataFrame);
  cashflow : str -> str -> str -> outcome (option DataFrame)
}.

(** [self.cache_manager]: [save_stock_data(symbol, data, data_source)]
    answers with a cache key or raises. *)
Record CacheManager := {
  save_stock_data : str -> DataFrame -> str -> outcome str
}.

Record TushareProvider := {
  connected : bool;
  enable_cache : bool;
  api : option TushareApi;
  cache_manager : option CacheManager
}.

(** What the process finds around it: the successive readings of
    [datetime.now()], and pandas' [df.sort_values(column)] and
    [df[column] = pd.to_datetime(df[column])], which may raise. *)
Record Env := {
  clock : nat -> datetime;
  sort_values : DataFrame -> str -> outcome DataFrame;
  to_datetime : DataFrame -> str -> outcome DataFrame
}.

(** The [logger.warning] and [logger.error] lines (the [logger.info] trace
    is left out). *)
Inductive LogLine :=
| NotConnected
| ApiCallFailed (e : exn)
| EmptyData (ts_code : str)
| CacheSaveFailed (e : exn)
| DailyFailed (symbol : str) (e : exn)
| InfoFailed (symbol : str) (e : exn)
| BalanceSheetFailed (e : exn)
| IncomeFailed (e : exn)
| CashFlowFailed (e : exn)
| FinancialsFailed (symbol : str) (e : exn).

(** What a call of the provider leaves behind. *)
Record World := {
  clock_reads : nat;
  api_calls : list ApiCall;
  cache_saves : list (str * DataFrame * str);
  log : list LogLine
}.

(** Nothing done yet. *)
Definition initial_world : World :=
  {| clock_reads := 0; api_calls := []; cache_saves := []; log := [] |}.

(** [datetime.now()] *)
Definition now (env : Env) : M World datetime :=
  fun w =>
    (Return (clock env (clock_reads w)),
     {| clock_reads := S (clock_reads w); api_calls := api_calls w;
        cache_saves := cache_saves w; log := log w |}).

(** A call on [self.api], recorded before its answer is known. *)
Definition call {A} (c : ApiCall) (answer : outcome A) : M World A :=
  fun w =>
    (answer,
     {| clock_reads := clock_reads w; api_calls := api_calls w ++ [c];
        cache_saves := cache_saves w; log := log w |}).

(** [self.cache_manager.save_stock_data(symbol=…, data=…, data_source=…)] *)
Definition save (cm : CacheManager) (symbol : str) (data : DataFrame)
    (data_source : str) : M World str :=
  fun w =>
    (save_stock_data cm symbol data data_source,
     {| clock_reads := clock_reads w; api_calls := api_calls w;
        cache_saves := cache_saves w ++ [(symbol, data, data_source)];
        log := log w |}).

(** [logger.warning(…)], [logger.error(…)] *)
Definition logger (l : LogLine) : M World unit :=
  tell (fun w =>
    {| clock_reads := clock_reads w; api_calls := api_calls w;
       cache_saves := cache_saves w; log := log w ++ [l] |}).

(** *** [get_stock_daily] *)

Definition get_stock_daily (env : Env) (self : TushareProvider)
    (symbol : str) (start_date end_date : option str) : M World DataFrame :=
  match connected self, api self with
  | true, Some api =>
      try_except
        (let ts_code := _normalize_symbol symbol in
         end_date ←
           match end_date with
           | None => t ← now env; mret (strftime_Ymd t)
           | Some end_date => mret (replace end_date "-" "")
           end;
         start_date ←
           match start_date with
           | None =>
               t ← now env;
               t ← lift (minus_days t 365);
               mret (strftime_Ymd t)
           | Some start_date => mret (replace start_date "-" "")
           end;
         (* the timestamp of the "API call starts" log line *)
         now env;;
         data ←
           try_except
             (call (Daily ts_code start_date end_date)
                   (daily api ts_code start_date end_date))
             (fun api_error => logger (ApiCallFailed api_error);; raise api_error);
         match data with
         | Some data =>
             if negb (empty data) then
               data ← lift (sort_values env data "trade_date");
               data ← lift (to_datetime env data "trade_date");
               match enable_cache self, cache_manager self with
               | true, Some cm =>
                   try_except
                     (save cm symbol data "tushare";; mret tt)
                     (fun cache_error => logger (CacheSaveFailed cache_error))
               | _, _ => mret tt
               end;;
               mret data
             else logger (EmptyData ts_code);; mret empty_frame
         | None => logger (EmptyData ts_code);; mret empty_frame
         end)
        (fun e => logger (DailyFailed symbol e);; mret empty_frame)
  | _, _ => logger NotConnected;; mret empty_frame
  end.

(** *** [get_stock_info] *)

(** The literal ['股票'] ("stock"): U+80A1 U+7968. *)
Definition STOCK : str := [32929; 31080]%N.

Definition STOCK_BASIC_FIELDS : str :=
  "ts_code,symbol,name,area,industry,market,list_date".

(** [{'symbol': symbol, 'name': f'股票{symbol}', 'source': 'unknown'}] *)
Definition unknown_info (symbol : str) : gmap str value :=
  {[ "symbol" := VStr symbol;
     "name" := VStr (STOCK ++ symbol);
     "source" := VStr "unknown" ]}.

(** [info[label]] on a row; a missing label is a [KeyError]. *)
Definition getitem (info : gmap str value) (label : str) : outcome value :=
  match info !! label with
  | Some v => Return v
  | None => Raise (Exn "KeyError" label)
  end.

(** [info.get(label, '')] *)
Definition get_or_blank (info : gmap str value) (label : str) : value :=
  default (VStr "") (info !! label).

(** [df.iloc[0]] *)
Definition iloc0 (df : DataFrame) : outcome (gmap str value) :=
  match rows df with
  | row :: _ => Return (labelled (columns df) row)
  | [] => Raise (Exn "IndexError" "single positional indexer is out-of-bounds")
  end.

Definition get_stock_info (self : TushareProvider) (symbol : str)
    : M World (gmap str value) :=
  match connected self, api self with
  | true, Some api =>
      try_except
        (let ts_code := _normalize_symbol symbol in
         basic_info ←
           call (StockBasic ts_code STOCK_BASIC_FIELDS)
                (stock_basic api ts_code STOCK_BASIC_FIELDS);
         match basic_info with
         | Some basic_info =>
             if negb (empty basic_info) then
               info ← lift (iloc0 basic_info);
               ts_code' ← lift (getitem info "ts_code");
               name ← lift (getitem info "name");
               mret ({[ "symbol" := VStr symbol;
                        "ts_code" := ts_code';
                        "name" := name;
                        "area" := get_or_blank info "area";
                        "industry" := get_or_blank info "industry";
                        "market" := get_or_blank info "market";
                        "list_date" := get_or_blank info "list_date";
                        "source" := VStr "tushare" ]} : gmap str value)
             else mret (unknown_info symbol)
         | None => mret (unknown_info symbol)
         end)
        (fun e => logger (InfoFailed symbol e);; mret (unknown_info symbol))
  | _, _ => mret (unknown_info symbol)
  end.

(** *** [get_financial_data] *)

Definition BALANCE_SHEET_FIELDS : str :=
  "ts_code,ann_date,f_ann_date,end_date,report_type,comp_type,total_assets,total_liab,total_hldr_eqy_exc_min_int".

Definition INCOME_FIELDS : str :=
  "ts_code,ann_date,f_ann_date,end_date,report_type,comp_type,total_revenue,total_cogs,operate_profit,total_profit,n_income".

Definition CASH_FLOW_FIELDS : str :=
  "ts_code,ann_date,f_ann_date,end_date,report_type,comp_type,net_profit,finan_exp,c_fr_sale_sg,c_paid_goods_s".

(** The returned dict: a list of records under each statement's name. *)
Definition Financials := gmap str (list (gmap str value)).

Definition get_financial_data (self : TushareProvider) (symbol period : str)
    : M World Financials :=
  match connected self, api self with
  | true, Some api =>
      try_except
        (let ts_code := _normalize_symbol symbol in
         let financials : Financials := ∅ in
         financials ←
           try_except
             (balance_sheet ←
                call (BalanceSheet ts_code period BALANCE_SHEET_FIELDS)
                     (balancesheet api ts_code period BALANCE_SHEET_FIELDS);
              mret (<["balance_sheet" := records_or_empty balance_sheet]> financials))
             (fun e =>
                logger (BalanceSheetFailed e);;
                mret (<["balance_sheet" := []]> financials));
         financials ←
           try_except
             (income_statement ←
                call (Income ts_code period INCOME_FIELDS)
                     (income api ts_code period INCOME_FIELDS);
              mret (<["income_statement" := records_or_empty income_statement]> financials))
             (fun e =>
                logger (IncomeFailed e);;
                mret (<["income_statement" := []]> financials));
         financials ←
           try_except
             (cash_flow ←
                call (CashFlow ts_code period CASH_FLOW_FIELDS)
                     (cashflow api ts_code period CASH_FLOW_FIELDS);
              mret (<["cash_flow" := records_or_empty cash_flow]> financials))
             (fun e =>
                logger (CashFlowFailed e);;
                mret (<["cash_flow" := []]> financials));
         mret financials)
        (fun e => logger (FinancialsFailed symbol e);; mret ∅)
  | _, _ => mret ∅
  end.

(** *** What the claims speak of *)

(** What the code files under a statement's name: the records of the
    answer, and the empty list when the remote call raised. *)
Definition statement (answer : outcome (option DataFrame))
    : list (gmap str value) :=
  match answer with
  | Return df => records_or_empty df
  | Raise _ => []
  end.


End Tushare.

(** ** A provider to run the operations on *)

Module TushareFixtures.
Import Tushare.

(** The exceptions of a remote API that is down and of a cache that
    cannot be written. *)
Definition RemoteError : exn := Exn "ConnectionError" "remote call failed".
Definition DiskError : exn := Exn "OSError" "cache is read-only".

(** One daily bar, and one line of a financial statement. *)
Definition bars : DataFrame :=
  {| columns := ["ts_code"; "trade_date"; "close"];
     rows := [[VStr "600000.SH"; VStr "20240301"; VNum (7 # 1)]] |}.

Definition report : DataFrame :=
  {| columns := ["ts_code"; "end_date"];
     rows := [[VStr "600000.SH"; VStr "20231231"]] |}.


(** A remote API that answers, except for the balance sheet. *)
Definition up_api : TushareApi :=
  {| daily := fun _ _ _ => Return (Some bars);
     stock_basic := fun _ _ => Return None;
     balancesheet := fun _ _ _ => Raise RemoteError;
     income := fun _ _ _ => Return (Some report);
     cashflow := fun _ _ _ => Return (Some report) |}.

(** A cache whose every write raises, and a connected provider on it. *)
Definition broken_cache : CacheManager :=
  {| save_stock_data := fun _ _ _ => Raise DiskError |}.

Definition provider (api : TushareApi) : TushareProvider :=
  {| connected := true; enable_cache := true; api := Some api;
     cache_manager := Some broken_cache |}.

(** The clock stands at noon of 2024-03-01; pandas does its work. *)
Definition env : Env :=
  {| clock := fun _ =>
       {| toordinal := _ymd2ord 2024 3 1; time_of_day := 43200000000 |};
     sort_values := fun df _ => Return df;
     to_datetime := fun df _ => Return df |}.

End TushareFixtures.

(** ** The DeepSeek chat adapter *)

Module DeepSeek.

(** *** Python objects and messages *)

(** The classes of message the adapter tells apart; [OtherMessage] stands
    for the remaining subclasses of [BaseMessage]. *)
Inductive MessageType := HumanMessage | AIMessage | SystemMessage | OtherMessage.

(** The objects that reach the adapter. *)
#[warnings="-register-all"]
Inductive pyobj :=
| PNone
| PInt (z : Z)
| PStr (s : str)
| PTuple (items : list pyobj)
| PList (items : list pyobj)
| PMessage (type : MessageType) (content : pyobj).

(** A [BaseMessage]. *)
Record BaseMessage := { type : MessageType; content : pyobj }.

(** A message as the object it is. *)
Definition object_of (message : BaseMessage) : pyobj :=
  PMessage (type message) (content message).

(** [LanguageModelInput]: a [str], a [PromptValue] (held by what
    [to_messages()] returns), or a sequence, which is a [list] or not. *)
Inductive LanguageModelInput :=
| InputStr (s : str)
| InputPromptValue (messages : list BaseMessage)
| InputList (items : list pyobj)
| InputTuple (items : list pyobj).

(** *** The remote answer *)

Record ChatGeneration := { message : BaseMessage }.

(** The dict [llm_output]: its ['token_usage'] entry, when it has one, and
    its other keys (a dict with a ['token_usage'] entry is not empty, and an
    empty dict has none, so its truth value needs no test of its own). *)
Record LLMOutput := {
  token_usage : option (gmap str Z);
  other_keys : list str
}.

Record ChatResult := {
  generations : list ChatGeneration;
  llm_output : option LLMOutput
}.

(** *** The collaborators *)

(** The record that [track_usage] gives back; only its cost is read. *)
Record UsageRecord := { cost : Q }.

(** The arguments of a [token_tracker.track_usage] call. *)
Record UsageCall := {
  provider : str;
  model_name_used : str;
  input_tokens : Z;
  output_tokens : Z;
  session_id : pyobj;
  analysis_type : pyobj
}.

(** The lines the adapter logs. *)
Inductive LogLine :=
| EstimatedTokens (input output : Z)
| ActualTokens (input output : Z)
| ZeroCost
| CallCost (cost : Q)
| NoUsageRecord
| TokenTrackingFailed (track_error : exn)
| CallFailed (e : exn).

(** What the adapter finds around it: Python's [str()] and [hash()], the
    validation that a message constructor runs on its content (the content
    as stored, or [None] for a [ValidationError]), the parent class's
    [_generate], the module's tracking flag and tracker, and the log
    manager's [log_token_usage]. *)
Record Env := {
  py_str : pyobj -> str;
  py_hash : str -> Z;
  validate_content : pyobj -> option pyobj;
  parent_generate :
    list BaseMessage -> option (list str) -> gmap str pyobj -> outcome ChatResult;
  TOKEN_TRACKING_ENABLED : bool;
  token_tracker : option (UsageCall -> outcome (option UsageRecord));
  log_token_usage : UsageCall -> Q -> outcome unit
}.

(** [str()] is the identity on a [str], and a message constructor takes a
    [str] as its content. *)
Definition python (env : Env) : Prop :=
  (forall s, py_str env (PStr s) = s) /\
  (forall s, validate_content env (PStr s) = Some (PStr s)).

Record ChatDeepSeek := { model_name : str }.

(** What a call of the adapter leaves behind. *)
Record World := {
  dispatched : list (list BaseMessage * option (list str) * gmap str pyobj);
  tracked : list UsageCall;
  log : list LogLine
}.

(** Nothing done yet. *)
Definition initial_world : World :=
  {| dispatched := []; tracked := []; log := [] |}.

(** [super()._generate(messages, stop, run_manager, **kwargs)]; the
    callback manager is handed on as it came and is left out. *)
Definition dispatch (env : Env) (messages : list BaseMessage)
    (stop : option (list str)) (kwargs : gmap str pyobj) : M World ChatResult :=
  fun w =>
    (parent_generate env messages stop kwargs,
     {| dispatched := dispatched w ++ [(messages, stop, kwargs)];
        tracked := tracked w; log := log w |}).

(** [token_tracker.track_usage(…)] *)
Definition track (tracker : UsageCall -> outcome (option UsageRecord))
    (usage : UsageCall) : M World (option UsageRecord) :=
  fun w =>
    (tracker usage,
     {| dispatched := dispatched w; tracked := tracked w ++ [usage];
        log := log w |}).

(** [logger.debug(…)], [logger.info(…)], [logger.warning(…)],
    [logger.error(…)] *)
Definition logger (l : LogLine) : M World unit :=
  tell (fun w =>
    {| dispatched := dispatched w; tracked := tracked w; log := log w ++ [l] |}).

(** *** Token counts *)

(** [_estimate_input_tokens] *)
Definition _estimate_input_tokens (env : Env) (messages : list BaseMessage) : Z :=
  let total_chars :=
    fold_left (fun total message => (total + len (py_str env (content message)))%Z)
              messages 0%Z in
  Z.max 1 (total_chars / 2).

(** [_estimate_output_tokens] *)
Definition _estimate_output_tokens (env : Env) (result : ChatResult) : Z :=
  let total_chars :=
    fold_left
      (fun total generation =>
         (total + len (py_str env (content (message generation))))%Z)
      (generations result) 0%Z in
  Z.max 1 (total_chars / 2).

(** The token counts read off the answer, the first step of [_generate]:
    both start at 0 and are set from a non-empty ['token_usage'] dict of a
    non-empty [llm_output], a missing key counting as 0. *)
Definition extracted_tokens (result : ChatResult) : Z * Z :=
  match llm_output result with
  | Some output =>
      match token_usage output with
      | Some usage =>
          if decide (usage = ∅) then (0, 0)%Z
          else (default 0%Z (usage !! "prompt_tokens"),
                default 0%Z (usage !! "completion_tokens"))
      | None => (0, 0)%Z
      end
  | None => (0, 0)%Z
  end.

(** *** [_generate] *)

(** The counts to account for: the ones read off the answer, or, when both
    are 0, the two estimates; a log line says which. *)
Definition count_tokens (env : Env) (messages : list BaseMessage)
    (result : ChatResult) : M World (Z * Z) :=
  let '(input_tokens, output_tokens) := extracted_tokens result in
  if (input_tokens =? 0)%Z && (output_tokens =? 0)%Z then
    let input_tokens := _estimate_input_tokens env messages in
    let output_tokens := _estimate_output_tokens env result in
    logger (EstimatedTokens input_tokens output_tokens);;
    mret (input_tokens, output_tokens)
  else
    logger (ActualTokens input_tokens output_tokens);;
    mret (input_tokens, output_tokens).

(** The arguments of [track_usage]: the session id and the analysis type
    that were passed, or their defaults. *)
Definition usage_call (env : Env) (self : ChatDeepSeek)
    (messages : list BaseMessage) (session_id analysis_type : pyobj)
    (input_tokens output_tokens : Z) : UsageCall :=
  let session_id :=
    match session_id with
    | PNone =>
        PStr ("deepseek_" ++
              str_of_int
                (py_hash env (py_str env (PList (map object_of messages)))
                 mod 10000))
    | _ => session_id
    end in
  let analysis_type :=
    match analysis_type with
    | PNone => PStr "stock_analysis"
    | _ => analysis_type
    end in
  {| provider := "deepseek"; model_name_used := model_name self;
     input_tokens := input_tokens; output_tokens := output_tokens;
     session_id := session_id; analysis_type := analysis_type |}.

(** The usage-recording step, a [try] block of its own. *)
Definition record_usage (env : Env)
    (tracker : UsageCall -> outcome (option UsageRecord)) (usage : UsageCall)
    : M World unit :=
  try_except
    (usage_record ← track tracker usage;
     match usage_record with
     | Some usage_record =>
         (if Qeq_bool (cost usage_record) 0
          then logger ZeroCost
          else logger (CallCost (cost usage_record)));;
         lift (log_token_usage env usage (cost usage_record))
     | None => logger NoUsageRecord
     end)
    (fun track_error => logger (TokenTrackingFailed track_error)).

Definition _generate (env : Env) (self : ChatDeepSeek)
    (messages : list BaseMessage) (stop : option (list str))
    (kwargs : gmap str pyobj) : M World ChatResult :=
  let session_id := default PNone (kwargs !! "session_id") in
  let kwargs := delete "session_id" kwargs in
  let analysis_type := default PNone (kwargs !! "analysis_type") in
  let kwargs := delete "analysis_type" kwargs in
  try_except
    (result ← dispatch env messages stop kwargs;
     '(input_tokens, output_tokens) ← count_tokens env messages result;
     match TOKEN_TRACKING_ENABLED env, token_tracker env with
     | true, Some tracker =>
         if (0 <? input_tokens)%Z || (0 <? output_tokens)%Z then
           record_usage env tracker
             (usage_call env self messages session_id analysis_type
                         input_tokens output_tokens)
         else mret tt
     | _, _ => mret tt
     end;;
     mret result)
    (fun e => logger (CallFailed e);; raise e).

(** *** [invoke] *)

#[global] Instance outcome_ret : MRet outcome := fun A a => Return a.

#[global] Instance outcome_bind : MBind outcome := fun A B k o =>
  match o with
  | Return a => k a
  | Raise e => Raise e
  end.

(** [HumanMessage(content=…)], [AIMessage(content=…)],
    [SystemMessage(content=…)] *)
Definition new_message (env : Env) (type : MessageType) (content : pyobj)
    : outcome BaseMessage :=
  match validate_content env content with
  | Some content => Return {| type := type; content := content |}
  | None => Raise (Exn "ValidationError" "content")
  end.

(** [role == "human"] and the like. *)
Definition is_str (o : pyobj) (s : str) : bool :=
  match o with
  | PStr s' => bool_decide (s' = s)
  | _ => false
  end.

(** The body of the loop over the items of a sequence. *)
Definition convert_item (env : Env) (item : pyobj) : outcome BaseMessage :=
  match item with
  | PMessage type content => Return {| type := type; content := content |}
  | PStr _ => new_message env HumanMessage item
  | PTuple [role; content] =>
      if is_str role "human" then new_message env HumanMessage content
      else if is_str role "ai" then new_message env AIMessage content
      else if is_str role "system" then new_message env SystemMessage content
      else new_message env HumanMessage (PStr (py_str env content))
  | _ => new_message env HumanMessage (PStr (py_str env item))
  end.

(** [isinstance(msg, BaseMessage)] *)
Definition is_message (o : pyobj) : bool :=
  match o with
  | PMessage _ _ => true
  | _ => false
  end.

(** The message that a [BaseMessage] object is. *)
Definition message_of (o : pyobj) : option BaseMessage :=
  match o with
  | PMessage type content => Some {| type := type; content := content |}
  | _ => None
  end.

(** The sequence converted item by item; if a step raises, the whole input
    becomes one human message of its string form. *)
Definition convert_sequence (env : Env) (input : pyobj) (items : list pyobj)
    : outcome (list BaseMessage) :=
  match mapM (convert_item env) items with
  | Return converted_messages => Return converted_messages
  | Raise _ => m ← new_message env HumanMessage (PStr (py_str env input)); mret [m]
  end.

(** The first step of [invoke]: the input as a list of messages. *)
Definition input_messages (env : Env) (input : LanguageModelInput)
    : outcome (list BaseMessage) :=
  match input with
  | InputStr s => m ← new_message env HumanMessage (PStr s); mret [m]
  | InputList items =>
      if forallb is_message items then Return (omap message_of items)
      else convert_sequence env (PList items) items
  | InputPromptValue messages => Return messages
  | InputTuple items => convert_sequence env (PTuple items) items
  end.


(** *** What the claims speak of *)

(** The counts that [_generate] accounts for. *)
Definition used_tokens (env : Env) (messages : list BaseMessage)
    (result : ChatResult) : Z * Z :=
  let '(input_tokens, output_tokens) := extracted_tokens result in
  if (input_tokens =? 0)%Z && (output_tokens =? 0)%Z
  then (_estimate_input_tokens env messages, _estimate_output_tokens env result)
  else (input_tokens, output_tokens).

(** The log line that says which counts were taken. *)
Definition token_line (env : Env) (messages : list BaseMessage)
    (result : ChatResult) : LogLine :=
  let '(input_tokens, output_tokens) := extracted_tokens result in
  if (input_tokens =? 0)%Z && (output_tokens =? 0)%Z
  then EstimatedTokens (_estimate_input_tokens env messages)
                       (_estimate_output_tokens env result)
  else ActualTokens input_tokens output_tokens.

(** The [track_usage] calls that a successful dispatch leads to. *)
Definition recorded (env : Env) (self : ChatDeepSeek)
    (messages : list BaseMessage) (kwargs : gmap str pyobj)
    (result : ChatResult) : list UsageCall :=
  let '(input_tokens, output_tokens) := used_tokens env messages result in
  match TOKEN_TRACKING_ENABLED env, token_tracker env with
  | true, Some _ =>
      if (0 <? input_tokens)%Z || (0 <? output_tokens)%Z
      then [usage_call env self messages
              (default PNone (kwargs !! "session_id"))
              (default PNone (delete "session_id" kwargs !! "analysis_type"))
              input_tokens output_tokens]
      else []
  | _, _ => []
  end.

(** The characters of the string forms of a list of contents. *)
Definition chars (env : Env) (contents : list pyobj) : Z :=
  foldr (fun c total => (len (py_str env c) + total)%Z) 0%Z contents.


(** [HumanMessage(content=text)] and [SystemMessage(content=text)]. *)
Definition Human (text : str) : BaseMessage :=
  {| type := HumanMessage; content := PStr text |}.

End DeepSeek.

(** ** An adapter to run the calls on *)

Module DeepSeekFixtures.
Import DeepSeek.

(** A stand-in for [str()]: the identity on a [str], which is all the
    examples ask of it. *)
Definition text_of (o : pyobj) : str :=
  match o with
  | PStr s => s
  | PInt z => str_of_int z
  | PNone => "None"
  | _ => "<object>"
  end.

(** The exceptions of a broken ledger and of a refused connection. *)
Definition LedgerError : exn := Exn "IOError" "usage ledger is not writable".
Definition RemoteError : exn := Exn "APIConnectionError" "connection refused".

(** A tracker that books every call at a fixed cost, and one that fails. *)
Definition booking (_ : UsageCall) : outcome (option UsageRecord) :=
  Return (Some {| cost := 1 # 100 |}).
Definition failing (_ : UsageCall) : outcome (option UsageRecord) :=
  Raise LedgerError.

(** The surroundings in which the remote call gives [answer] and usage
    goes to [tracker]. *)
Definition env_of (answer : outcome ChatResult)
    (tracker : UsageCall -> outcome (option UsageRecord)) : Env :=
  {| py_str := text_of;
     py_hash := fun _ => 424242%Z;
     validate_content := fun o =>
       match o with PStr _ | PList _ => Some o | _ => None end;
     parent_generate := fun _ _ _ => answer;
     TOKEN_TRACKING_ENABLED := true;
     token_tracker := Some tracker;
     log_token_usage := fun _ _ => Return tt |}.

(** Forty characters of assistant content. *)
Definition forty : str := "The outlook for the stock stays positive".

(** A usage block, and an answer with or without one. *)
Definition block (prompt_tokens completion_tokens : Z) : gmap str Z :=
  {[ "prompt_tokens" := prompt_tokens;
     "completion_tokens" := completion_tokens ]}.

Definition output_of (usage : option (gmap str Z)) : LLMOutput :=
  {| token_usage := usage; other_keys := ["model_name"] |}.

Definition reply (usage : option (gmap str Z)) : ChatResult :=
  {| generations :=
       [{| message := {| type := AIMessage; content := PStr forty |} |}];
     llm_output := Some (output_of usage) |}.

(** Fifteen characters of input, in two messages. *)
Definition question : list BaseMessage :=
  [{| type := SystemMessage; content := PStr "Be brief" |};
   {| type := HumanMessage; content := PStr "600000?" |}].

Definition deepseek : ChatDeepSeek := {| model_name := "deepseek-chat" |}.

(** The token counts of the [track_usage] calls made. *)
Definition counts (w : World) : list (Z * Z) :=
  map (fun call => (input_tokens call, output_tokens call)) (tracked w).

End DeepSeekFixtures.

(** ** Making the provider *)

Module TushareSetup.
Import Tushare.

(** The module [tushare] where its import succeeded: [ts.set_token(token)],
    and [ts.pro_api()], which connects with the token that was set. *)
Record TushareModule := {
  set_token : str -> outcome unit;
  pro_api : str -> outcome TushareApi
}.

(** What the process finds around it when a provider is made: whether
    [.cache_manager] could be imported, what [get_cache()] gives, the
    environment variables, and the module [ts], which is [None] where its
    import failed (and [TUSHARE_AVAILABLE] is [False] then). *)
Record Surroundings := {
  CACHE_AVAILABLE : bool;
  get_cache : outcome CacheManager;
  getenv : str -> option str;
  ts : option TushareModule
}.

(** The [logger.warning] and [logger.error] lines of [__init__]. *)
Inductive SetupLine :=
| CacheUnavailable (e : exn)
| TokenMissing
| ConnectionFailed (e : exn)
| LibraryUnavailable.

(** What making a provider asks of the surroundings. *)
Inductive SetupEvent :=
| GetCache
| Getenv (name : str)
| SetToken (token : str)
| ProApi
| Logged (line : SetupLine).

(** The process: the module's global [_tushare_provider], what the
    constructor did so far, and what the provider's operations did. *)
Record Process := {
  _tushare_provider : option TushareProvider;
  setup : list SetupEvent;
  calls : World
}.

(** A fresh process. *)
Definition initial_process : Process :=
  {| _tushare_provider := None; setup := []; calls := initial_world |}.

(** A step of the constructor, recorded before its answer is known. *)
Definition event {A} (e : SetupEvent) (answer : outcome A) : M Process A :=
  fun p =>
    (answer,
     {| _tushare_provider := _tushare_provider p; setup := setup p ++ [e];
        calls := calls p |}).

(** [logger.warning(…)], [logger.error(…)] *)
Definition logger (line : SetupLine) : M Process unit :=
  event (Logged line) (Return tt).

(** The truth value of a [str | None]. *)
Definition truthy (s : option str) : bool :=
  match s with
  | Some (_ :: _) => true
  | _ => false
  end.

(** [TushareProvider.__init__] *)
Definition __init__ (sur : Surroundings) (token : option str)
    (enable_cache : bool) : M Process TushareProvider :=
  let enable_cache := enable_cache && CACHE_AVAILABLE sur in
  '(enable_cache, cache_manager) ←
    (if enable_cache then
       try_except
         (cache_manager ← event GetCache (get_cache sur);
          mret (enable_cache, Some cache_manager))
         (fun e => logger (CacheUnavailable e);; mret (false, None))
     else mret (enable_cache, None));
  token ←
    (if negb (truthy token)
     then event (Getenv "TUSHARE_TOKEN") (Return (getenv sur "TUSHARE_TOKEN"))
     else mret token);
  let unconnected :=
    {| connected := false; enable_cache := enable_cache; api := None;
       cache_manager := cache_manager |} in
  match token with
  | Some ((_ :: _) as token) =>
      match ts sur with
      | Some ts =>
          try_except
            (event (SetToken token) (set_token ts token);;
             api ← event ProApi (pro_api ts token);
             mret {| connected := true; enable_cache := enable_cache;
                     api := Some api; cache_manager := cache_manager |})
            (fun e => logger (ConnectionFailed e);; mret unconnected)
      | None => logger LibraryUnavailable;; mret unconnected
      end
  | _ => logger TokenMissing;; mret unconnected
  end.

(** [get_tushare_provider] *)
Definition get_tushare_provider (sur : Surroundings) : M Process TushareProvider :=
  current ← ask _tushare_provider;
  match current with
  | None =>
      provider ← __init__ sur None true;
      tell (fun p =>
        {| _tushare_provider := Some provider; setup := setup p;
           calls := calls p |});;
      mret provider
  | Some provider => mret provider
  end.

(** An operation of the provider, run in the process. *)
Definition operate {A} (operation : M World A) : M Process A :=
  fun p =>
    let '(answer, w) := operation (calls p) in
    (answer,
     {| _tushare_provider := _tushare_provider p; setup := setup p;
        calls := w |}).

(** [get_china_stock_data_tushare] *)
Definition get_china_stock_data_tushare (sur : Surroundings) (env : Env)
    (symbol : str) (start_date end_date : option str) : M Process DataFrame :=
  provider ← get_tushare_provider sur;
  operate (get_stock_daily env provider symbol start_date end_date).

(** [get_china_stock_info_tushare] *)
Definition get_china_stock_info_tushare (sur : Surroundings) (symbol : str)
    : M Process (gmap str value) :=
  provider ← get_tushare_provider sur;
  operate (get_stock_info provider symbol).

End TushareSetup.

(** ** The list of shares *)

Module TushareListing.
Import Tushare.

(** [str.strip()]: the characters that count as white space, and the text
    without them at either end. *)
Definition is_space (c : char) : bool :=
  ((9 <=? c) && (c <=? 13) || (28 <=? c) && (c <=? 32) ||
   (c =? 133) || (c =? 160) || (c =? 5760) ||
   (8192 <=? c) && (c <=? 8202) || (c =? 8232) || (c =? 8233) ||
   (c =? 8239) || (c =? 8287) || (c =? 12288))%N.

Fixpoint lstrip (s : str) : str :=
  match s with
  | c :: rest => if is_space c then lstrip rest else s
  | [] => []
  end.

Definition strip (s : str) : str := rev (lstrip (rev (lstrip s))).

(** What [load_stock_data] gives back: [None], a table, a text, or
    something else. *)
Inductive Cached :=
| NoData
| Table (df : DataFrame)
| Text (s : str)
| Other.

(** What [get_stock_list] and [search_stocks] ask for besides the
    provider's own fields: of [self.cache_manager] its
    [find_cached_stock_data(symbol, max_age_hours)] and
    [load_stock_data(cache_key)], of [self.api] its
    [stock_basic(exchange, list_status, fields)], and of pandas
    [pd.DataFrame(json.loads(text))] and
    [df[column].str.contains(keyword, na=False)]. *)
Record Listing := {
  find_cached_stock_data : str -> Z -> outcome (option str);
  load_stock_data : str -> outcome Cached;
  stock_basic_list : str -> str -> str -> outcome (option DataFrame);
  frame_of_json : str -> outcome DataFrame;
  str_contains : DataFrame -> str -> str -> outcome (list bool)
}.

(** The [logger.warning] and [logger.error] lines. *)
Inductive ListLine :=
| ListNotConnected
| UnsupportedFormat
| ParseFailed (e : exn)
| ListSaveFailed (e : exn)
| EmptyList
| ListFailed (e : exn)
| SearchFailed (e : exn).

(** What the two operations ask of their collaborators. *)
Inductive ListEvent :=
| FindCached (symbol : str) (max_age_hours : Z)
| LoadCached (cache_key : str)
| ParseJson (text : str)
| StockList (exchange list_status fields : str)
| SaveList (symbol : str) (data : DataFrame) (data_source : str)
| Contains (column keyword : str)
| Logged (line : ListLine).

(** A step, recorded before its answer is known. *)
Definition event {A} (e : ListEvent) (answer : outcome A)
    : M (list ListEvent) A :=
  fun w => (answer, w ++ [e]).

(** [logger.warning(…)], [logger.error(…)] *)
Definition logger (line : ListLine) : M (list ListEvent) unit :=
  event (Logged line) (Return tt).

(** The first part of [get_stock_list]: the list as the cache has it, when
    the cache has a usable one. *)
Definition cached_stock_list (lst : Listing) (self : TushareProvider)
    : M (list ListEvent) (option DataFrame) :=
  match enable_cache self, cache_manager self with
  | true, Some _ =>
      cache_key ←
        event (FindCached "tushare_stock_list" 24)
              (find_cached_stock_data lst "tushare_stock_list" 24);
      match cache_key with
      | Some ((_ :: _) as cache_key) =>
          cached_data ←
            event (LoadCached cache_key) (load_stock_data lst cache_key);
          match cached_data with
          | Table cached_data =>
              if negb (empty cached_data) then mret (Some cached_data)
              else mret None
          | Text cached_data =>
              match strip cached_data with
              | _ :: _ =>
                  try_except
                    (if startswith (strip cached_data) "[" ||
                        startswith (strip cached_data) "{"
                     then
                       df ← event (ParseJson cached_data)
                                  (frame_of_json lst cached_data);
                       if negb (empty df) then mret (Some df) else mret None
                     else logger UnsupportedFormat;; mret None)
                    (fun e => logger (ParseFailed e);; mret None)
              | [] => mret None
              end
          | NoData | Other => mret None
          end
      | _ => mret None
      end
  | _, _ => mret None
  end.

Definition STOCK_LIST_FIELDS : str :=
  "ts_code,symbol,name,area,industry,market,list_date".

(** [TushareProvider.get_stock_list] *)
Definition get_stock_list (lst : Listing) (self : TushareProvider)
    : M (list ListEvent) DataFrame :=
  match connected self, api self with
  | true, Some _ =>
      try_except
        (cached ← cached_stock_list lst self;
         match cached with
         | Some cached_data => mret cached_data
         | None =>
             stock_list ←
               event (StockList "" "L" STOCK_LIST_FIELDS)
                     (stock_basic_list lst "" "L" STOCK_LIST_FIELDS);
             match stock_list with
             | Some stock_list =>
                 if negb (empty stock_list) then
                   match enable_cache self, cache_manager self with
                   | true, Some cm =>
                       try_except
                         (event (SaveList "tushare_stock_list" stock_list "tushare")
                                (save_stock_data cm "tushare_stock_list"
                                                 stock_list "tushare");;
                          mret tt)
                         (fun e => logger (ListSaveFailed e))
                   | _, _ => mret tt
                   end;;
                   mret stock_list
                 else logger EmptyList;; mret empty_frame
             | None => logger EmptyList;; mret empty_frame
             end
         end)
        (fun e => logger (ListFailed e);; mret empty_frame)
  | _, _ => logger ListNotConnected;; mret empty_frame
  end.

(** [stock_list[mask]]: the rows at which the mask holds. *)
Definition select (df : DataFrame) (mask : list bool) : DataFrame :=
  {| columns := columns df;
     rows := map snd (List.filter fst (zip mask (rows df))) |}.

(** [TushareProvider.search_stocks] *)
Definition search_stocks (lst : Listing) (self : TushareProvider)
    (keyword : str) : M (list ListEvent) DataFrame :=
  try_except
    (stock_list ← get_stock_list lst self;
     if empty stock_list then mret empty_frame
     else
       by_name ← event (Contains "name" keyword)
                       (str_contains lst stock_list "name" keyword);
       by_symbol ← event (Contains "symbol" keyword)
                         (str_contains lst stock_list "symbol" keyword);
       by_code ← event (Contains "ts_code" keyword)
                       (str_contains lst stock_list "ts_code" keyword);
       let mask := zip_with orb (zip_with orb by_name by_symbol) by_code in
       mret (select stock_list mask))
    (fun e => logger (SearchFailed e);; mret empty_frame).

(** *** Where a returned list comes from *)

(** The cache had the list, as a table or as a text that parses. *)
Definition from_cache (lst : Listing) (df : DataFrame) : Prop :=
  exists cache_key,
    find_cached_stock_data lst "tushare_stock_list" 24 = Return (Some cache_key) /\
    (load_stock_data lst cache_key = Return (Table df) \/
     exists text,
       load_stock_data lst cache_key = Return (Text text) /\
       frame_of_json lst text = Return df).

(** The remote API answered the list. *)
Definition from_remote (lst : Listing) (df : DataFrame) : Prop :=
  stock_basic_list lst "" "L" STOCK_LIST_FIELDS = Return (Some df).

End TushareListing.

(** ** Making the chat adapter *)

Module DeepSeekSetup.
Import DeepSeek.

(** The keyword arguments that reach [ChatOpenAI.__init__]; [api_key] is
    the text inside the [SecretStr], or [None]. *)
Record ParentArguments := {
  model : str;
  api_key : option str;
  base_url : str;
  temperature : Q;
  max_completion_tokens : option Z;
  kwargs : gmap str pyobj
}.

(** What the constructor finds around it: the environment variables and
    the constructor of the parent class. *)
Record Surroundings := {
  getenv : str -> option str;
  parent_init : ParentArguments -> outcome unit
}.

(** What the constructor asks of them. *)
Inductive SetupEvent :=
| Getenv (name : str)
| ParentInit (arguments : ParentArguments).

(** A step, recorded before its answer is known. *)
Definition event {A} (e : SetupEvent) (answer : outcome A)
    : M (list SetupEvent) A :=
  fun w => (answer, w ++ [e]).

(** The truth value of a [str | None]. *)
Definition truthy (s : option str) : bool :=
  match s with
  | Some (_ :: _) => true
  | _ => false
  end.

(** The message of the [ValueError]: ["DeepSeek API"], the words for "key
    not found", and the advice to set [DEEPSEEK_API_KEY] or to pass
    [api_key]. *)
Definition KEY_NOT_FOUND : str :=
  "DeepSeek API" ++ [23494; 38053; 26410; 25214; 21040; 12290; 35831; 35774;
                     32622]%N
  ++ "DEEPSEEK_API_KEY" ++ [29615; 22659; 21464; 37327; 25110; 20256; 20837]%N
  ++ "api_key" ++ [21442; 25968; 12290]%N.

(** [ChatDeepSeek.__init__] *)
Definition __init__ (sur : Surroundings) (model : str) (api_key : option str)
    (base_url : str) (temperature : Q) (max_tokens : option Z)
    (kwargs : gmap str pyobj) : M (list SetupEvent) ChatDeepSeek :=
  api_key ←
    match api_key with
    | None =>
        api_key ← event (Getenv "DEEPSEEK_API_KEY")
                        (Return (getenv sur "DEEPSEEK_API_KEY"));
        if negb (truthy api_key)
        then raise (Exn "ValueError" KEY_NOT_FOUND)
        else mret api_key
    | Some _ => mret api_key
    end;
  let arguments :=
    {| model := model;
       api_key := if truthy api_key then api_key else None;
       base_url := base_url;
       temperature := temperature;
       max_completion_tokens := max_tokens;
       kwargs := kwargs |} in
  event (ParentInit arguments) (parent_init sur arguments);;
  mret {| model_name := model |}.

End DeepSeekSetup.

(** ** The DeepSeek V3 adapter *)

Module DeepSeekV3.
Import DeepSeek.

(** The keyword arguments of [ChatOpenAI(…)]. *)
Record LlmArguments := {
  llm_model : str;
  llm_api_key : option str;
  llm_base_url : str;
  llm_temperature : Q;
  streaming : bool
}.

(** [self.llm]: what [invoke(messages, **kwargs)] answers, by the content
    of the response. *)
Record ChatOpenAI := {
  llm_invoke : list BaseMessage -> gmap str pyobj -> outcome pyobj
}.

(** What the adapter finds around it: the environment variables, the
    constructor [ChatOpenAI] and Python's [str()]. *)
Record Surroundings := {
  getenv : str -> option str;
  new_llm : LlmArguments -> outcome ChatOpenAI;
  py_str : pyobj -> str
}.

Record DeepSeekAdapter := {
  api_key : option str;
  model_name : str;
  temperature : Q;
  max_tokens : option Z;
  base_url : str;
  model : str;
  llm : ChatOpenAI
}.

(** The [logger.error] lines. *)
Inductive LogLine :=
| InitFailed (e : exn)
| ChatFailed (e : exn)
| ConnectionTestFailed (e : exn).

(** What the adapter asks of its surroundings. *)
Inductive Event :=
| Getenv (name : str)
| NewLlm (arguments : LlmArguments)
| Invoke (messages : list BaseMessage) (kwargs : gmap str pyobj)
| Logged (line : LogLine).

(** A step, recorded before its answer is known. *)
Definition event {A} (e : Event) (answer : outcome A) : M (list Event) A :=
  fun w => (answer, w ++ [e]).

(** [logger.error(…)] *)
Definition logger (line : LogLine) : M (list Event) unit :=
  event (Logged line) (Return tt).

(** The truth value of a [str | None]. *)
Definition truthy (s : option str) : bool :=
  match s with
  | Some (_ :: _) => true
  | _ => false
  end.

Definition SUPPORTED_MODELS : gmap str str :=
  {[ "deepseek-chat" := "deepseek-chat" ]}.

Definition BASE_URL : str := "https://api.deepseek.com".

(** The message of the [ValueError]: the words for "must provide", and
    [DEEPSEEK_API_KEY]. *)
Definition KEY_NEEDED : str :=
  [38656; 35201; 25552; 20379]%N ++ "DEEPSEEK_API_KEY".

(** [DeepSeekAdapter._init_llm], by the fields it reads. *)
Definition _init_llm (sur : Surroundings) (model : str) (api_key : option str)
    (base_url : str) (temperature : Q) : M (list Event) ChatOpenAI :=
  try_except
    (let arguments :=
       {| llm_model := model;
          llm_api_key := if truthy api_key then api_key else None;
          llm_base_url := base_url;
          llm_temperature := temperature;
          streaming := false |} in
     event (NewLlm arguments) (new_llm sur arguments))
    (fun e => logger (InitFailed e);; raise e).

(** [DeepSeekAdapter.__init__] *)
Definition __init__ (sur : Surroundings) (api_key : option str) (model : str)
    (temperature : Q) (max_tokens : option Z) (base_url : option str)
    : M (list Event) DeepSeekAdapter :=
  api_key ←
    (if truthy api_key then mret api_key
     else event (Getenv "DEEPSEEK_API_KEY")
                (Return (getenv sur "DEEPSEEK_API_KEY")));
  let model_name := model in
  base_url ←
    match base_url with
    | Some ((_ :: _) as base_url) => mret base_url
    | _ =>
        event (Getenv "DEEPSEEK_BASE_URL")
              (Return (default BASE_URL (getenv sur "DEEPSEEK_BASE_URL")))
    end;
  if negb (truthy api_key) then raise (Exn "ValueError" KEY_NEEDED)
  else
    let model := default "deepseek-chat" (SUPPORTED_MODELS !! model) in
    llm ← _init_llm sur model api_key base_url temperature;
    mret {| api_key := api_key; model_name := model_name;
            temperature := temperature; max_tokens := max_tokens;
            base_url := base_url; model := model; llm := llm |}.

(** [DeepSeekAdapter.chat] *)
Definition chat (sur : Surroundings) (self : DeepSeekAdapter)
    (messages : list BaseMessage) (kwargs : gmap str pyobj)
    : M (list Event) str :=
  try_except
    (let kwargs :=
       match kwargs !! "max_tokens", max_tokens self with
       | None, Some max_tokens => <["max_tokens" := PInt max_tokens]> kwargs
       | _, _ => kwargs
       end in
     content ← event (Invoke messages kwargs)
                     (llm_invoke (llm self) messages kwargs);
     match content with
     | PStr content => mret content
     | PList content => mret (concat (map (py_str sur) content))
     | _ => mret (py_str sur content)
     end)
    (fun e => logger (ChatFailed e);; raise e).

(** [DeepSeekAdapter.test_connection] *)
Definition test_connection (sur : Surroundings) (self : DeepSeekAdapter)
    : M (list Event) bool :=
  try_except
    (let test_message := [Human "Hello, this is a test."] in
     response ← chat sur self test_message ∅;
     mret (match response with _ :: _ => true | [] => false end))
    (fun e => logger (ConnectionTestFailed e);; mret false).

(** The values of the dict that [get_model_info] returns. *)
Inductive info_value :=
| IStr (s : str)
| INum (q : Q)
| IInt (z : option Z)
| IBool (b : bool).

(** [DeepSeekAdapter.get_model_info] *)
Definition get_model_info (self : DeepSeekAdapter) : gmap str info_value :=
  {[ "provider" := IStr "DeepSeek";
     "model" := IStr (model self);
     "model_name" := IStr (model_name self);
     "temperature" := INum (temperature self);
     "max_tokens" := IInt (max_tokens self);
     "base_url" := IStr (base_url self);
     "supports_tools" := IBool true;
     "supports_streaming" := IBool false;
     "context_length" :=
       IStr (if str_in "chat" (model self) then "128K" else "64K") ]}.

End DeepSeekV3.

(** ** More collaborators to run the code on *)

Module TushareExamples.
Import Tushare TushareFixtures TushareSetup TushareListing.

(** A provider that never got its connection. *)
Definition offline : TushareProvider :=
  {| connected := false; enable_cache := true; api := None;
     cache_manager := Some broken_cache |}.

(** What [stock_basic] answers for one share: two rows, and neither a
    [market] nor a [list_date] column. *)
Definition shares : DataFrame :=
  {| columns := ["ts_code"; "symbol"; "name"; "area"; "industry"];
     rows := [[VStr "600000.SH"; VStr "600000"; VStr "SPD Bank";
               VStr "Shanghai"; VStr "Banking"];
              [VStr "600000.SH"; VStr "600000"; VStr "Pudong Development";
               VStr "Shanghai"; VStr "Banking"]] |}.

(** A remote API that knows the share and nothing else. *)
Definition listed_api : TushareApi :=
  {| daily := fun _ _ _ => Return None;
     stock_basic := fun _ _ => Return (Some shares);
     balancesheet := fun _ _ _ => Return None;
     income := fun _ _ _ => Return None;
     cashflow := fun _ _ _ => Return None |}.

(** The error line that a statement's call leaves when it raises. *)
Definition failure (line : exn -> LogLine) (answer : outcome (option DataFrame))
    : list LogLine :=
  match answer with
  | Raise e => [line e]
  | Return _ => []
  end.

(** The [tushare] library at work: any token is taken, and the
    connection is to [up_api]. *)
Definition tushare_library : TushareModule :=
  {| set_token := fun _ => Return tt; pro_api := fun _ => Return up_api |}.

(** A process without a token in its environment, and one with. *)
Definition no_token : Surroundings :=
  {| CACHE_AVAILABLE := true; get_cache := Return broken_cache;
     getenv := fun _ => None; ts := Some tushare_library |}.

Definition token_set : Surroundings :=
  {| CACHE_AVAILABLE := true; get_cache := Return broken_cache;
     getenv := fun name =>
       if decide (name = "TUSHARE_TOKEN") then Some "0a1b2c3d" else None;
     ts := Some tushare_library |}.

(** A cache that holds the list, one that cannot be read and one that
    holds nothing; the remote API answers the list in each case, and no
    name, symbol or code matches a keyword. *)
Definition listing_with
    (find : outcome (option str)) : Listing :=
  {| find_cached_stock_data := fun _ _ => find;
     load_stock_data := fun _ => Return (Table shares);
     stock_basic_list := fun _ _ _ => Return (Some shares);
     frame_of_json := fun _ => Raise (Exn "JSONDecodeError" "Expecting value");
     str_contains := fun df _ _ => Return (map (fun _ => false) (rows df)) |}.

Definition warm : Listing := listing_with (Return (Some "stock_list.pkl")).
Definition torn : Listing := listing_with (Raise DiskError).
Definition cold : Listing := listing_with (Return None).

End TushareExamples.

Module DeepSeekExamples.
Import DeepSeek DeepSeekFixtures DeepSeekV3.

(** A tracker that books every call at no cost. *)
Definition free_of_charge (_ : UsageCall) : outcome (option UsageRecord) :=
  Return (Some {| cost := 0 |}).

(** A model that answers in two pieces, and an adapter on it. *)
Definition two_pieces : ChatOpenAI :=
  {| llm_invoke := fun _ _ => Return (PList [PStr "Hold"; PStr "."]) |}.

Definition v3_surroundings : Surroundings :=
  {| getenv := fun _ => None;
     new_llm := fun _ => Return two_pieces;
     py_str := text_of |}.

Definition v3_adapter : DeepSeekAdapter :=
  {| api_key := Some "sk-0000"; model_name := "deepseek-coder";
     temperature := 1 # 10; max_tokens := Some 2000%Z;
     base_url := BASE_URL; model := "deepseek-chat"; llm := two_pieces |}.

End DeepSeekExamples.

(** * Facts about Python text *)

Module PyStrFacts.

Lemma startswith_nil (s : str) : startswith s [] = true.
Proof. by destruct s. Qed.

Lemma startswith_char (s : str) (c : char) :
  startswith s [c] = match s with c' :: _ => (c' =? c)%N | [] => false end.
Proof.
  destruct s as [|c' s']; simpl; [done|].
  rewrite startswith_nil. apply andb_true_r.
Qed.

Lemma startswith_app (s prefix : str) :
  startswith s prefix = true -> exists rest, s = prefix ++ rest.
Proof.
  revert s; induction prefix as [|p prefix IH]; intros s H.
  - by exists s.
  - destruct s as [|c s]; simpl in H; [done|].
    apply andb_true_iff in H as [Hc Hs].
    apply N.eqb_eq in Hc as ->.
    destruct (IH _ Hs) as [rest ->]. by exists rest.
Qed.

Lemma startswith_prefix_app (prefix rest : str) :
  startswith (prefix ++ rest) prefix = true.
Proof.
  induction prefix as [|p prefix IH]; simpl.
  - apply startswith_nil.
  - by rewrite N.eqb_refl.
Qed.

Lemma startswith_app_l (s t prefix : str) :
  startswith s prefix = true -> startswith (s ++ t) prefix = true.
Proof.
  intros [rest ->]%startswith_app.
  rewrite <- app_assoc. apply startswith_prefix_app.
Qed.

Lemma str_in_nil (sub : str) : str_in sub [] = startswith [] sub.
Proof. cbn [str_in]. apply orb_false_r. Qed.

Lemma str_in_cons (sub : str) (c : char) (s : str) :
  str_in sub (c :: s) = startswith (c :: s) sub || str_in sub s.
Proof. reflexivity. Qed.

Lemma str_in_cons_false (sub : str) (c : char) (s : str) :
  str_in sub (c :: s) = false ->
  startswith (c :: s) sub = false /\ str_in sub s = false.
Proof. rewrite str_in_cons. apply orb_false_iff. Qed.

Lemma str_in_app_r (sub a b : str) :
  str_in sub b = true -> str_in sub (a ++ b) = true.
Proof.
  intros H. induction a as [|c a IH]; [done|].
  rewrite <- app_comm_cons, str_in_cons, IH. apply orb_true_r.
Qed.

Lemma str_in_app_l (sub a b : str) :
  str_in sub a = true -> str_in sub (a ++ b) = true.
Proof.
  induction a as [|c a IH].
  - rewrite str_in_nil. intros H. destruct sub; [|done].
    destruct b; [done|]. by rewrite app_nil_l, str_in_cons, startswith_nil.
  - rewrite <- app_comm_cons, !str_in_cons.
    intros [H|H]%orb_true_iff.
    + rewrite app_comm_cons, (startswith_app_l _ _ _ H). done.
    + rewrite (IH H). apply orb_true_r.
Qed.

Lemma str_in_occurrence (sub a b : str) : str_in sub (a ++ sub ++ b) = true.
Proof.
  apply str_in_app_r. destruct (sub ++ b) as [|c t] eqn:E.
  - by destruct sub.
  - rewrite str_in_cons, <- E, startswith_prefix_app. done.
Qed.

(** Dropping the characters that are still to skip. *)
Lemma replace_from_skip (k : nat) (s old new : str) :
  replace_from k s old new = replace_from 0 (drop k s) old new.
Proof.
  revert s; induction k as [|k IH]; intros [|c s]; simpl; auto.
Qed.

(** The defining equations of [replace] for a non-empty [old]. *)
Lemma replace_nil (old new : str) : old <> [] -> replace [] old new = [].
Proof. by destruct old. Qed.

Lemma replace_cons (c : char) (s old new : str) :
  old <> [] ->
  replace (c :: s) old new =
    if startswith (c :: s) old
    then new ++ replace (drop (length old) (c :: s)) old new
    else c :: replace s old new.
Proof.
  destruct old as [|o old]; [done|]. intros _.
  unfold replace. cbn [replace_from].
  destruct (startswith (c :: s) (o :: old)); [|done].
  f_equal. cbn [length drop]. rewrite Nat.sub_succ, Nat.sub_0_r.
  apply replace_from_skip.
Qed.

(** Where [old] does not occur nothing is replaced. *)
Lemma replace_absent (s old new : str) :
  old <> [] -> str_in old s = false -> replace s old new = s.
Proof.
  intros Hold. induction s as [|c s IH]; intros H.
  - by apply replace_nil.
  - apply str_in_cons_false in H as [H1 H2].
    rewrite replace_cons, H1 by done. f_equal. by apply IH.
Qed.

(** A text without the first character of [sub] has no occurrence of it. *)
Lemma str_in_first_absent (x : char) (sub s : str) :
  forallb (fun c => negb (c =? x)%N) s = true -> str_in (x :: sub) s = false.
Proof.
  induction s as [|c s IH]; [done|].
  rewrite str_in_cons. cbn [forallb startswith].
  intros [Hc Hs]%andb_true_iff.
  apply negb_true_iff in Hc. rewrite Hc. by apply IH.
Qed.

End PyStrFacts.

(** * Facts about dates and digits *)

Module DateFacts.
Import PyStrFacts.

Lemma is_digit_digit (d : Z) : (0 <= d <= 9)%Z -> is_digit (digit d) = true.
Proof.
  intros H. unfold is_digit, digit.
  apply andb_true_iff. split; apply N.leb_le; lia.
Qed.

Lemma digits_below_ten (fuel : nat) (n : Z) :
  (n < 10)%Z -> digits fuel n = [digit n].
Proof.
  intros H. destruct fuel; [done|]. cbn [digits].
  destruct (Z.ltb_spec n 10); [done|lia].
Qed.

Lemma digits_from_ten (fuel : nat) (n : Z) :
  (10 <= n)%Z ->
  digits (S fuel) n = digits fuel (n / 10) ++ [digit (n mod 10)].
Proof.
  intros H. cbn [digits]. destruct (Z.ltb_spec n 10); [lia|done].
Qed.

Ltac zdiv := Z.div_mod_to_equations; lia.







End DateFacts.

(** * The symbol normaliser *)

Module TushareSymbols.
Import PyStrFacts Tushare.

(** An occurrence of a three-character pattern cannot reach over the seam
    of [a ++ b] when [b] starts with the pattern's first character and that
    character is not repeated in the pattern: [replace] then works on [a]
    and [b] apart. *)
Lemma replace_app_seam (x y z : char) (a b : str) :
  x <> y -> x <> z -> head b = Some x ->
  replace (a ++ b) [x; y; z] [] = replace a [x; y; z] [] ++ replace b [x; y; z] [].
Proof.
  intros Hxy Hxz Hb.
  remember (length a) as n eqn:Hn. revert a Hn.
  induction n as [n IH] using lt_wf_ind. intros a ->.
  destruct a as [|c a]; [done|].
  rewrite <- app_comm_cons, !replace_cons by done.
  destruct (startswith (c :: a) [x; y; z]) eqn:Ha.
  - rewrite app_comm_cons, (startswith_app_l _ b _ Ha).
    apply startswith_app in Ha as [rest Ha]. rewrite Ha. cbn [length drop app].
    rewrite !drop_0. cbn [app]. apply (IH (length rest)); [|done].
    apply (f_equal length) in Ha. simpl in Ha |- *. lia.
  - destruct (startswith (c :: a ++ b) [x; y; z]) eqn:Hab.
    + exfalso. destruct b as [|b0 b]; [done|]. injection Hb as ->.
      destruct a as [|d [|e a]]; cbn in Ha, Hab.
      * rewrite !andb_true_iff, !N.eqb_eq in Hab. by destruct Hab as (_ & ? & _).
      * rewrite !andb_true_iff, !N.eqb_eq in Hab. by destruct Hab as (_ & _ & ? & _).
      * rewrite startswith_nil in Ha. rewrite startswith_nil in Hab. congruence.
    + cbn [app]. f_equal. apply (IH (length a)); [cbn; lia|done].
Qed.

(** Every occurrence of the pattern is deleted, wherever it stands. *)
Lemma replace_deletes_occurrence (x y z : char) (a b : str) :
  x <> y -> x <> z ->
  replace (a ++ [x; y; z] ++ b) [x; y; z] [] =
  replace a [x; y; z] [] ++ replace b [x; y; z] [].
Proof.
  intros Hxy Hxz. rewrite replace_app_seam by done. f_equal.
  cbn [app]. rewrite replace_cons by done.
  cbn [startswith]. rewrite !N.eqb_refl, startswith_nil. done.
Qed.

(** Deleting ["sh."] leaves an occurrence of ["sz."] in place. *)
Lemma replace_sh_keeps_sz (a b : str) :
  replace (a ++ "sz." ++ b) "sh." "" =
  replace a "sh." "" ++ "sz." ++ replace b "sh." "".
Proof.
  by rewrite replace_app_seam.
Qed.

Lemma strip_prefixes_sh (a b : str) :
  strip_prefixes (a ++ "sh." ++ b) =
  replace (replace a "sh." "" ++ replace b "sh." "") "sz." "".
Proof. unfold strip_prefixes. by rewrite replace_deletes_occurrence. Qed.

Lemma strip_prefixes_sz (a b : str) :
  strip_prefixes (a ++ "sz." ++ b) = strip_prefixes a ++ strip_prefixes b.
Proof.
  unfold strip_prefixes.
  by rewrite replace_sh_keeps_sz, replace_deletes_occurrence.
Qed.

(** The source's chain of [startswith] tests is the spec's first-character
    rule. *)
Lemma normalize_symbol_suffix_rule (s : str) :
  _normalize_symbol s = suffix_rule (strip_prefixes s).
Proof.
  unfold _normalize_symbol, suffix_rule, strip_prefixes.
  destruct (str_in "." _); [done|].
  rewrite !startswith_char.
  destruct (replace _ _ _) as [|c t]; [done|]. cbn [head].
  destruct (c =? 54)%N eqn:E6; [by apply N.eqb_eq in E6 as ->|].
  destruct (c =? 48)%N eqn:E0; [by apply N.eqb_eq in E0 as ->|].
  destruct (c =? 51)%N eqn:E3; [by apply N.eqb_eq in E3 as ->|].
  destruct (c =? 56)%N eqn:E8; [by apply N.eqb_eq in E8 as ->|].
  apply N.eqb_neq in E6, E0, E3, E8. cbn [orb].
  unfold exchange_suffix.
  repeat (match goal with |- context [match ?p with _ => _ end] => destruct p end;
          try done).
Qed.

(** A code made of digits has no prefix to strip and no separator. *)
Lemma digits_bare (s : str) :
  forallb is_digit s = true ->
  strip_prefixes s = s /\ str_in "." s = false.
Proof.
  intros Hd.
  assert (Hno : forall x, (x < 48 \/ 57 < x)%N ->
            forallb (fun c => negb (c =? x)%N) s = true).
  { intros x Hx. apply forallb_forall. intros c Hc.
    eapply forallb_forall in Hd; [|exact Hc].
    unfold is_digit in Hd. apply andb_true_iff in Hd as [H1 H2].
    apply N.leb_le in H1, H2. apply negb_true_iff, N.eqb_neq. lia. }
  unfold strip_prefixes. split.
  - rewrite (replace_absent s "sh."), (replace_absent s "sz.");
      try done; apply str_in_first_absent, Hno; lia.
  - apply str_in_first_absent, Hno. lia.
Qed.

(** The normalised symbol always carries an exchange separator. *)
Lemma normalize_symbol_has_separator (s : str) :
  str_in "." (_normalize_symbol s) = true.
Proof.
  rewrite normalize_symbol_suffix_rule. unfold suffix_rule.
  destruct (str_in "." (strip_prefixes s)) eqn:E; [done|].
  replace (exchange_suffix (head (strip_prefixes s)))
    with ("." ++ drop 1 (exchange_suffix (head (strip_prefixes s)))).
  - apply (str_in_occurrence "." (strip_prefixes s)).
  - unfold exchange_suffix.
    repeat (match goal with |- context [match ?p with _ => _ end] => destruct p end;
            try done).
Qed.

(** A symbol with a separator and no occurrence of the two prefixes is left
    as it is. *)
Lemma normalize_symbol_canonical (s : str) :
  str_in "." s = true -> str_in "sh." s = false -> str_in "sz." s = false ->
  _normalize_symbol s = s.
Proof.
  intros Hdot Hsh Hsz. unfold _normalize_symbol.
  rewrite (replace_absent s "sh.") by done.
  rewrite (replace_absent s "sz.") by done.
  by rewrite Hdot.
Qed.

(** Each prefix is deleted in one pass, ["sh."] first: an occurrence of
    ["sz."] that the first pass brings about is deleted by the second, one
    of ["sh."] that the second pass brings about stays. *)
Lemma strip_prefixes_single_pass :
  strip_prefixes "ssh.z." = "" /\ strip_prefixes "ssz.h." = "sh.".
Proof. split; reflexivity. Qed.


(** C5: a bare code of one or more digits gets the exchange suffix of its
    first character: [6] gives [.SH], [0] and [3] give [.SZ], [8] gives
    [.BJ], any other digit gives [.SZ]. *)
Theorem normalize_symbol_bare_digits (s : str) :
  s <> [] -> forallb is_digit s = true ->
  _normalize_symbol s = s ++ exchange_suffix (head s) /\
  (startswith s "6" = true -> _normalize_symbol s = s ++ ".SH") /\
  (startswith s "0" = true \/ startswith s "3" = true ->
   _normalize_symbol s = s ++ ".SZ") /\
  (startswith s "8" = true -> _normalize_symbol s = s ++ ".BJ") /\
  (startswith s "6" = false -> startswith s "0" = false ->
   startswith s "3" = false -> startswith s "8" = false ->
   _normalize_symbol s = s ++ ".SZ").
Proof.
  intros Hne Hd. destruct (digits_bare s Hd) as [Hstrip Hdot].
  assert (Hn : _normalize_symbol s = s ++ exchange_suffix (head s)).
  { rewrite normalize_symbol_suffix_rule. unfold suffix_rule.
    by rewrite Hstrip, Hdot. }
  rewrite Hn. destruct s as [|c s]; [done|]. rewrite !startswith_char.
  cbn [head]. repeat split.
  - by intros ->%N.eqb_eq.
  - by intros [->%N.eqb_eq | ->%N.eqb_eq].
  - by intros ->%N.eqb_eq.
  - intros H6%N.eqb_neq H0%N.eqb_neq H3%N.eqb_neq H8%N.eqb_neq.
    f_equal. unfold exchange_suffix.
    repeat (match goal with |- context [match ?p with _ => _ end] => destruct p end;
            try done).
Qed.

Lemma normalize_symbol_bare_digits_witness :
  "600000" <> [] /\ forallb is_digit "600000" = true /\
  _normalize_symbol "600000" = "600000" ++ exchange_suffix (head "600000").
Proof.
  split; [done|]. split; [reflexivity|].
  refine (proj1 (normalize_symbol_bare_digits "600000" _ _));
    [discriminate|reflexivity].
Defined.

(** C4, as the code has it: a symbol that contains the separator and no
    occurrence of ["sh."] or ["sz."] is returned unchanged, and normalising
    twice is normalising once whenever the normalised symbol contains no
    such occurrence. *)
Theorem normalize_symbol_idempotent_on_canonical :
  (forall s, str_in "." s = true -> str_in "sh." s = false ->
             str_in "sz." s = false -> _normalize_symbol s = s) /\
  (forall s, str_in "sh." (_normalize_symbol s) = false ->
             str_in "sz." (_normalize_symbol s) = false ->
             _normalize_symbol (_normalize_symbol s) = _normalize_symbol s).
Proof.
  split.
  - apply normalize_symbol_canonical.
  - intros s Hsh Hsz. apply normalize_symbol_canonical; [|done..].
    apply normalize_symbol_has_separator.
Qed.

Lemma normalize_symbol_idempotent_on_canonical_witness :
  _normalize_symbol "000001.SZ" = "000001.SZ" /\
  _normalize_symbol (_normalize_symbol "sh.600000") = _normalize_symbol "sh.600000".
Proof.
  split.
  - apply (proj1 normalize_symbol_idempotent_on_canonical); reflexivity.
  - apply (proj2 normalize_symbol_idempotent_on_canonical); reflexivity.
Defined.

(** C4 as stated fails: ["sh.600000"] contains the separator and is changed,
    and normalising ["6sh"] twice differs from normalising it once. *)
Lemma normalize_symbol_not_idempotent :
  (str_in "." "sh.600000" = true /\ _normalize_symbol "sh.600000" <> "sh.600000") /\
  _normalize_symbol "6sh" = "6sh.SH" /\
  _normalize_symbol (_normalize_symbol "6sh") = "6SH.SH" /\
  _normalize_symbol (_normalize_symbol "6sh") <> _normalize_symbol "6sh".
Proof. repeat split; done. Qed.

End TushareSymbols.

(** * The Tushare provider *)

Module TushareOperations.
Import PyStrFacts DateFacts Tushare TushareFixtures.

(** Unfolding the effects of a provider call. *)
Ltac run :=
  cbv [try_except mbind M_bind mret M_ret raise lift tell ask
       call save logger now].

(** A case analysis on what the next collaborator answers. *)
Ltac step :=
  match goal with
  | |- context [match ?x with _ => _ end] =>
      lazymatch x with
      | context [match _ with _ => _ end] => fail
      | _ => destruct x eqn:?
      end
  end.

(** With a connected provider [get_financial_data] makes its three calls
    whatever each of them answers, and files each answer apart. *)
Lemma get_financial_data_connected (self : TushareProvider) (api : TushareApi)
    (symbol period : str) (w : World) :
  connected self = true -> Tushare.api self = Some api ->
  let ts_code := _normalize_symbol symbol in
  (get_financial_data self symbol period w).1 =
    Return ({[ "balance_sheet" :=
                 statement (balancesheet api ts_code period BALANCE_SHEET_FIELDS);
               "income_statement" :=
                 statement (income api ts_code period INCOME_FIELDS);
               "cash_flow" :=
                 statement (cashflow api ts_code period CASH_FLOW_FIELDS) ]}
            : Financials) /\
  api_calls (get_financial_data self symbol period w).2 =
    api_calls w ++ [BalanceSheet ts_code period BALANCE_SHEET_FIELDS;
                    Income ts_code period INCOME_FIELDS;
                    CashFlow ts_code period CASH_FLOW_FIELDS].
Proof.
  intros Hc Ha ts_code. unfold get_financial_data. rewrite Hc, Ha. run.
  fold ts_code.
  destruct (balancesheet api ts_code period BALANCE_SHEET_FIELDS);
    destruct (income api ts_code period INCOME_FIELDS);
    destruct (cashflow api ts_code period CASH_FLOW_FIELDS);
    cbn [fst snd api_calls statement]; rewrite <- ?app_assoc; split; reflexivity.
Qed.

















End TushareOperations.

(** * The DeepSeek chat adapter *)

Module DeepSeekAdapter.
Import PyStrFacts DeepSeek DeepSeekFixtures.

(** Unfolding the effects of an adapter call. *)
Ltac run :=
  cbv [try_except mbind M_bind mret M_ret raise lift tell dispatch track logger].

(** Counting logs one line and changes nothing else. *)
Lemma count_tokens_run (env : Env) (messages : list BaseMessage)
    (result : ChatResult) (w : World) :
  count_tokens env messages result w =
    (Return (used_tokens env messages result),
     {| dispatched := dispatched w; tracked := tracked w;
        log := log w ++ [token_line env messages result] |}).
Proof.
  unfold count_tokens, used_tokens, token_line.
  destruct (extracted_tokens result) as [i o].
  by destruct ((i =? 0)%Z && (o =? 0)%Z).
Qed.

(** The recording step never raises: it leaves the call in the trace and
    its lines in the log, the last of which reports the exception when the
    tracker or the log manager raised. *)
Lemma record_usage_run (env : Env)
    (tracker : UsageCall -> outcome (option UsageRecord)) (usage : UsageCall)
    (w : World) :
  exists lines,
    record_usage env tracker usage w =
      (Return tt,
       {| dispatched := dispatched w; tracked := tracked w ++ [usage];
          log := log w ++ lines |}) /\
    (forall e, tracker usage = Raise e -> lines = [TokenTrackingFailed e]) /\
    (forall r e, tracker usage = Return (Some r) ->
       log_token_usage env usage (cost r) = Raise e ->
       last lines = Some (TokenTrackingFailed e)).
Proof.
  unfold record_usage. run.
  destruct (tracker usage) as [[r|]|e] eqn:Ht; cbn [tracked dispatched log].
  - destruct (Qeq_bool (cost r) 0);
      destruct (log_token_usage env usage (cost r)) as [[]|e] eqn:Hl;
      cbn [tracked dispatched log]; rewrite <- ?app_assoc;
      (eexists; split; [reflexivity|]; split; [done|]);
      intros r' e' [= <-] He'; rewrite Hl in He'; try done;
      by injection He' as <-.
  - eexists. split; [reflexivity|]. split; done.
  - eexists. split; [reflexivity|]. split; [|done].
    by intros e' [= <-].
Qed.

Section Generate.
Variables (env : Env) (self : ChatDeepSeek).
Variables (messages : list BaseMessage) (stop : option (list str)).
Variable kwargs : gmap str pyobj.
Variable w : World.

Let forwarded : gmap str pyobj :=
  delete "analysis_type" (delete "session_id" kwargs).

(** A failed dispatch: logged and raised again, nothing recorded. *)
Lemma generate_dispatch_raises (e : exn) :
  parent_generate env messages stop forwarded = Raise e ->
  _generate env self messages stop kwargs w =
    (Raise e,
     {| dispatched := dispatched w ++ [(messages, stop, forwarded)];
        tracked := tracked w;
        log := log w ++ [CallFailed e] |}).
Proof.
  intros H. unfold _generate.
  cbv [try_except mbind M_bind mret M_ret raise tell dispatch logger].
  fold forwarded. by rewrite H.
Qed.

(** A successful dispatch: the result comes back, with the calls of
    [recorded] in the trace. *)
Lemma generate_dispatch_returns (result : ChatResult) :
  parent_generate env messages stop forwarded = Return result ->
  exists lines,
    _generate env self messages stop kwargs w =
      (Return result,
       {| dispatched := dispatched w ++ [(messages, stop, forwarded)];
          tracked := tracked w ++ recorded env self messages kwargs result;
          log := log w ++ token_line env messages result :: lines |}) /\
    (forall tracker usage,
       token_tracker env = Some tracker ->
       recorded env self messages kwargs result = [usage] ->
       (forall e, tracker usage = Raise e -> lines = [TokenTrackingFailed e]) /\
       (forall r e, tracker usage = Return (Some r) ->
          log_token_usage env usage (cost r) = Raise e ->
          last lines = Some (TokenTrackingFailed e))).
Proof.
  intros H. unfold _generate, recorded.
  cbv [try_except mbind M_bind mret M_ret dispatch].
  fold forwarded. rewrite H, count_tokens_run. cbn [tracked log dispatched].
  destruct (used_tokens env messages result) as [i o].
  destruct (TOKEN_TRACKING_ENABLED env), (token_tracker env) as [tracker|];
    try (exists []; rewrite app_nil_r; split; [done|]; intros;
         simplify_eq; done).
  destruct ((0 <? i)%Z || (0 <? o)%Z).
  - destruct (record_usage_run env tracker
               (usage_call env self messages
                  (default PNone (kwargs !! "session_id"))
                  (default PNone (delete "session_id" kwargs !! "analysis_type"))
                  i o)
               {| dispatched := dispatched w ++ [(messages, stop, forwarded)];
                  tracked := tracked w;
                  log := log w ++ [token_line env messages result] |})
      as (lines & -> & Hr & Hl).
    cbn [tracked log dispatched]. exists lines. rewrite <- app_assoc.
    split; [done|]. intros tracker' usage [= <-] [= <-]. by split.
  - exists []. rewrite app_nil_r. split; [done|]. intros; simplify_eq.
Qed.

End Generate.

(** The loop that adds up the lengths. *)
Lemma fold_left_chars {A} (env : Env) (f : A -> pyobj) (l : list A) (acc : Z) :
  fold_left (fun total x => (total + len (py_str env (f x)))%Z) l acc =
  (acc + chars env (map f l))%Z.
Proof.
  unfold chars. revert acc; induction l as [|x l IH]; intros acc; cbn.
  - lia.
  - rewrite IH. lia.
Qed.

Lemma estimate_input_tokens_chars (env : Env) (messages : list BaseMessage) :
  _estimate_input_tokens env messages =
  Z.max 1 (chars env (map content messages) / 2).
Proof. unfold _estimate_input_tokens. by rewrite fold_left_chars. Qed.

Lemma estimate_output_tokens_chars (env : Env) (result : ChatResult) :
  _estimate_output_tokens env result =
  Z.max 1 (chars env (map (fun g => content (message g)) (generations result)) / 2).
Proof. unfold _estimate_output_tokens. by rewrite fold_left_chars. Qed.

Lemma chars_of_texts (env : Env) (texts : list str) :
  python env -> chars env (map PStr texts) = len (concat texts).
Proof.
  intros [Hstr _]. induction texts as [|t texts IH]; [done|].
  cbn [map chars foldr concat]. fold (chars env (map PStr texts)).
  rewrite IH, Hstr. unfold len. rewrite length_app. lia.
Qed.

(** The counts of a usage block: its two entries, 0 for a missing one. *)
Lemma extracted_tokens_block (result : ChatResult) (output : LLMOutput)
    (usage : gmap str Z) :
  llm_output result = Some output -> token_usage output = Some usage ->
  extracted_tokens result =
    (default 0%Z (usage !! "prompt_tokens"),
     default 0%Z (usage !! "completion_tokens")).
Proof.
  intros Ho Hu. unfold extracted_tokens. rewrite Ho, Hu.
  destruct (decide (usage = ∅)) as [->|]; done.
Qed.

(** Without a usage block both counts are 0. *)
Lemma extracted_tokens_no_block (result : ChatResult) :
  match llm_output result with
  | Some output => token_usage output = None
  | None => True
  end ->
  extracted_tokens result = (0, 0)%Z.
Proof.
  unfold extracted_tokens. destruct (llm_output result) as [output|]; [|done].
  by intros ->.
Qed.

(** The last line of a log that goes on. *)
Lemma last_log_line (before lines : list LogLine) (first l : LogLine) :
  last lines = Some l -> last (before ++ first :: lines) = Some l.
Proof.
  intros H. destruct lines as [|l0 lines]; [done|].
  rewrite last_app.
  change (last (first :: l0 :: lines)) with (last (l0 :: lines)).
  by rewrite H.
Qed.

(** C2: an exception of the remote dispatch leaves [_generate] unchanged
    (nothing is recorded, the failure is logged); when the dispatch
    succeeds [_generate] returns its result whatever the usage recording
    does; and an exception raised inside the recording step, by the
    tracker or by the log manager, is logged and the result is still
    returned. *)
Theorem generate_error_handling (env : Env) (self : ChatDeepSeek)
    (messages : list BaseMessage) (stop : option (list str))
    (kwargs : gmap str pyobj) (w : World) :
  let forwarded := delete "analysis_type" (delete "session_id" kwargs) in
  let outcome_of := (_generate env self messages stop kwargs w).1 in
  let final := (_generate env self messages stop kwargs w).2 in
  (forall e,
     parent_generate env messages stop forwarded = Raise e ->
     outcome_of = Raise e /\ tracked final = tracked w /\
     log final = log w ++ [CallFailed e]) /\
  (forall result,
     parent_generate env messages stop forwarded = Return result ->
     outcome_of = Return result) /\
  (forall result tracker usage e,
     parent_generate env messages stop forwarded = Return result ->
     token_tracker env = Some tracker ->
     tracked final = tracked w ++ [usage] ->
     tracker usage = Raise e \/
     (exists r, tracker usage = Return (Some r) /\
                log_token_usage env usage (cost r) = Raise e) ->
     outcome_of = Return result /\
     last (log final) = Some (TokenTrackingFailed e)).
Proof.
  intros forwarded outcome_of final. subst outcome_of final. split; [|split].
  - intros e H. by rewrite (generate_dispatch_raises _ _ _ _ _ _ _ H).
  - intros result H.
    destruct (generate_dispatch_returns env self messages stop kwargs w result H)
      as (lines & -> & _). done.
  - intros result tracker usage e H Ht Hu Hraise.
    destruct (generate_dispatch_returns env self messages stop kwargs w result H)
      as (lines & Hrun & Hlines).
    rewrite Hrun in Hu |- *. cbn [fst snd tracked log] in Hu |- *.
    apply app_inv_head in Hu. destruct (Hlines tracker usage Ht Hu) as [Hr Hl].
    split; [done|]. apply last_log_line.
    destruct Hraise as [Hraise|(r & Hrec & Hraise)].
    + by rewrite (Hr e Hraise).
    + by apply (Hl r e).
Qed.

Lemma generate_error_handling_witness :
  (_generate (env_of (Raise RemoteError) booking) deepseek question None ∅
             initial_world).1 = Raise RemoteError /\
  (_generate (env_of (Return (reply None)) failing) deepseek question None ∅
             initial_world).1 = Return (reply None) /\
  last (log (_generate (env_of (Return (reply None)) failing) deepseek question
                       None ∅ initial_world).2)
    = Some (TokenTrackingFailed LedgerError).
Proof.
  split.
  - apply (generate_error_handling (env_of (Raise RemoteError) booking)
             deepseek question None ∅ initial_world). reflexivity.
  - refine (proj2 (proj2 (generate_error_handling
             (env_of (Return (reply None)) failing)
             deepseek question None ∅ initial_world))
             (reply None) failing _ LedgerError eq_refl eq_refl _ _).
    + vm_compute. reflexivity.
    + left. reflexivity.
Defined.

(** With tracking switched on and a tracker at hand, a positive count is
    recorded. *)
Lemma recorded_when_positive (env : Env) (self : ChatDeepSeek)
    (messages : list BaseMessage) (kwargs : gmap str pyobj)
    (result : ChatResult) (tracker : UsageCall -> outcome (option UsageRecord))
    (i o : Z) :
  TOKEN_TRACKING_ENABLED env = true -> token_tracker env = Some tracker ->
  used_tokens env messages result = (i, o) -> (0 < i \/ 0 < o)%Z ->
  exists call,
    recorded env self messages kwargs result = [call] /\
    input_tokens call = i /\ output_tokens call = o.
Proof.
  intros He Ht Hu Hpos. unfold recorded. rewrite Hu, He, Ht.
  destruct ((0 <? i)%Z || (0 <? o)%Z) eqn:E.
  - eexists. split; [reflexivity|]. done.
  - apply orb_false_iff in E as [?%Z.ltb_ge ?%Z.ltb_ge]. lia.
Qed.

Lemma estimates_positive (env : Env) (messages : list BaseMessage)
    (result : ChatResult) :
  (1 <= _estimate_input_tokens env messages)%Z /\
  (1 <= _estimate_output_tokens env result)%Z.
Proof. split; apply Z.le_max_l. Qed.

(** C3, as the code has it: with tracking on, a usage block whose
    non-negative counts are not both zero is recorded as it is; when the
    counts read off the answer are both zero (there is no usage block, or
    the block says 0 and 0) both recorded counts are estimates,
    [max(1, characters // 2)] over the message contents, which for texts
    is the length of their concatenation. *)
Theorem recorded_token_counts (env : Env) (self : ChatDeepSeek)
    (messages : list BaseMessage) (stop : option (list str))
    (kwargs : gmap str pyobj) (w : World) (result : ChatResult)
    (tracker : UsageCall -> outcome (option UsageRecord)) :
  parent_generate env messages stop
    (delete "analysis_type" (delete "session_id" kwargs)) = Return result ->
  TOKEN_TRACKING_ENABLED env = true -> token_tracker env = Some tracker ->
  let final := (_generate env self messages stop kwargs w).2 in
  (forall output usage prompt_tokens completion_tokens,
     llm_output result = Some output -> token_usage output = Some usage ->
     usage !! "prompt_tokens" = Some prompt_tokens ->
     usage !! "completion_tokens" = Some completion_tokens ->
     (0 <= prompt_tokens)%Z -> (0 <= completion_tokens)%Z ->
     prompt_tokens <> 0%Z \/ completion_tokens <> 0%Z ->
     exists call,
       tracked final = tracked w ++ [call] /\
       input_tokens call = prompt_tokens /\
       output_tokens call = completion_tokens) /\
  (extracted_tokens result = (0, 0)%Z ->
     exists call,
       tracked final = tracked w ++ [call] /\
       input_tokens call =
         Z.max 1 (chars env (map content messages) / 2) /\
       output_tokens call =
         Z.max 1 (chars env (map (fun g => content (message g))
                                 (generations result)) / 2)) /\
  (match llm_output result with
   | Some output => token_usage output = None
   | None => True
   end -> extracted_tokens result = (0, 0)%Z) /\
  (python env -> forall texts, chars env (map PStr texts) = len (concat texts)).
Proof.
  intros Hp He Ht final.
  destruct (generate_dispatch_returns env self messages stop kwargs w result Hp)
    as (lines & Hrun & _).
  assert (Hfinal : tracked final =
            tracked w ++ recorded env self messages kwargs result).
  { subst final. by rewrite Hrun. }
  rewrite Hfinal. clear Hrun Hfinal final. split; [|split; [|split]].
  - intros output usage p c Ho Hu Hpt Hct Hp0 Hc0 Hnz.
    destruct (recorded_when_positive env self messages kwargs result tracker
                p c He Ht) as (call & -> & Hi & Hout); [|lia|by exists call].
    unfold used_tokens.
    rewrite (extracted_tokens_block result output usage Ho Hu), Hpt, Hct.
    cbn [default from_option id].
    destruct (Z.eqb_spec p 0), (Z.eqb_spec c 0); cbn [andb]; try done. lia.
  - intros Hz.
    pose proof (estimates_positive env messages result) as [Hi Hout].
    destruct (recorded_when_positive env self messages kwargs result tracker
                (_estimate_input_tokens env messages)
                (_estimate_output_tokens env result) He Ht)
      as (call & -> & Hci & Hco); [|lia|].
    + unfold used_tokens. by rewrite Hz.
    + exists call. split; [done|].
      by rewrite Hci, Hco, estimate_input_tokens_chars,
                 estimate_output_tokens_chars.
  - apply extracted_tokens_no_block.
  - intros Hpy texts. by apply chars_of_texts.
Qed.

Lemma recorded_token_counts_witness :
  counts (_generate
            (env_of (Return (reply (Some (block 50 20))))
                    booking)
            deepseek question None ∅ initial_world).2 = [(50, 20)%Z] /\
  counts (_generate (env_of (Return (reply None)) booking)
            deepseek question None ∅ initial_world).2 = [(7, 20)%Z].
Proof.
  split.
  - pose proof (recorded_token_counts
               (env_of (Return (reply (Some (block 50 20))))
                       booking)
               deepseek question None ∅ initial_world _ booking
               eq_refl eq_refl eq_refl) as (H & _).
    destruct (H (output_of (Some (block 50 20))) (block 50 20) 50%Z 20%Z)
      as (call & Hc & Hi & Ho);
      [reflexivity | reflexivity | reflexivity | reflexivity
      | lia | lia | lia | ].
    unfold counts. rewrite Hc. cbn. by rewrite Hi, Ho.
  - destruct (proj1 (proj2 (recorded_token_counts
               (env_of (Return (reply None)) booking)
               deepseek question None ∅ initial_world _ booking
               eq_refl eq_refl eq_refl)) eq_refl) as (call & Hc & Hi & Ho).
    unfold counts. rewrite Hc. cbn [map tracked initial_world app].
    rewrite Hi, Ho. vm_compute. reflexivity.
Defined.

(** C3 as stated fails: an explicit usage block of 0 and 0 is not recorded
    as 0 and 0 but as the estimates, and the estimate for an empty content is
    1, not [0 // 2]. *)
Lemma zero_usage_block_is_estimated :
  counts (_generate
            (env_of (Return (reply (Some (block 0 0))))
                    booking)
            deepseek question None ∅ initial_world).2 = [(7, 20)%Z] /\
  _estimate_output_tokens (env_of (Return (reply None)) booking)
    {| generations := [{| message := {| type := AIMessage; content := PStr "" |} |}];
       llm_output := None |} = 1%Z.
Proof. split; vm_compute; reflexivity. Qed.

(** C10: the estimates are taken exactly when both counts read off the
    answer are zero (a log line says which were taken); each estimate is at
    least 1; the counts of a usage block are its entries with 0 for a
    missing one, so a block with one positive count is used as it is; and
    with tracking on and counts that are not negative, a successful
    dispatch is followed by one [track_usage] call with the counts taken. *)
Theorem estimation_fallback (env : Env) (self : ChatDeepSeek)
    (messages : list BaseMessage) (stop : option (list str))
    (kwargs : gmap str pyobj) (w : World) (result : ChatResult)
    (prompt_tokens completion_tokens : Z) :
  parent_generate env messages stop
    (delete "analysis_type" (delete "session_id" kwargs)) = Return result ->
  extracted_tokens result = (prompt_tokens, completion_tokens) ->
  let final := (_generate env self messages stop kwargs w).2 in
  let estimates :=
    (_estimate_input_tokens env messages, _estimate_output_tokens env result) in
  (prompt_tokens = 0%Z /\ completion_tokens = 0%Z ->
     used_tokens env messages result = estimates /\
     exists lines,
       log final = log w ++ EstimatedTokens estimates.1 estimates.2 :: lines) /\
  (~ (prompt_tokens = 0%Z /\ completion_tokens = 0%Z) ->
     used_tokens env messages result = (prompt_tokens, completion_tokens) /\
     exists lines,
       log final =
         log w ++ ActualTokens prompt_tokens completion_tokens :: lines) /\
  (1 <= estimates.1 /\ 1 <= estimates.2)%Z /\
  (forall output usage,
     llm_output result = Some output -> token_usage output = Some usage ->
     prompt_tokens = default 0%Z (usage !! "prompt_tokens") /\
     completion_tokens = default 0%Z (usage !! "completion_tokens")) /\
  (forall tracker,
     TOKEN_TRACKING_ENABLED env = true -> token_tracker env = Some tracker ->
     (0 <= prompt_tokens)%Z -> (0 <= completion_tokens)%Z ->
     exists call,
       tracked final = tracked w ++ [call] /\
       (input_tokens call, output_tokens call) =
         used_tokens env messages result).
Proof.
  intros Hp Hx final estimates.
  destruct (generate_dispatch_returns env self messages stop kwargs w result Hp)
    as (lines & Hrun & _).
  assert (Hlog : log final = log w ++ token_line env messages result :: lines)
    by (subst final; by rewrite Hrun).
  assert (Htr : tracked final =
            tracked w ++ recorded env self messages kwargs result)
    by (subst final; by rewrite Hrun).
  rewrite Hlog, Htr. clear Hrun Hlog Htr final.
  pose proof (estimates_positive env messages result) as [Hi Ho].
  unfold used_tokens, token_line. rewrite Hx. subst estimates. cbn [fst snd].
  split; [|split; [|split; [|split]]].
  - intros [-> ->]. cbn. split; [done|]. by exists lines.
  - intros Hnz.
    destruct (Z.eqb_spec prompt_tokens 0), (Z.eqb_spec completion_tokens 0);
      cbn [andb]; try (split; [done|by exists lines]). by destruct Hnz.
  - done.
  - intros output usage Hout Hu.
    rewrite (extracted_tokens_block result output usage Hout Hu) in Hx.
    by injection Hx as <- <-.
  - intros tracker He Ht Hp0 Hc0.
    destruct (used_tokens env messages result) as [i o] eqn:Hu.
    assert (Hpos : (0 < i \/ 0 < o)%Z).
    { unfold used_tokens in Hu. rewrite Hx in Hu.
      destruct (Z.eqb_spec prompt_tokens 0), (Z.eqb_spec completion_tokens 0);
        cbn [andb] in Hu; injection Hu as <- <-; lia. }
    destruct (recorded_when_positive env self messages kwargs result tracker
                i o He Ht Hu Hpos) as (call & -> & <- & <-).
    exists call. split; [done|]. unfold used_tokens in Hu. by rewrite Hx in Hu.
Qed.

Lemma estimation_fallback_witness :
  counts (_generate
            (env_of (Return (reply (Some (block 0 9))))
                    booking)
            deepseek question None ∅ initial_world).2 = [(0, 9)%Z].
Proof.
  destruct (proj2 (proj2 (proj2 (proj2 (estimation_fallback
             (env_of (Return (reply (Some (block 0 9))))
                     booking)
             deepseek question None ∅ initial_world _ 0%Z 9%Z
             eq_refl eq_refl)))) booking eq_refl eq_refl ltac:(lia) ltac:(lia))
    as (call & Hc & Hu).
  unfold counts. rewrite Hc. cbn [map tracked initial_world app].
  rewrite Hu. vm_compute. reflexivity.
Defined.

(** The loop over the items stops at the first exception. *)
Lemma mapM_outcome_cons {A B} (f : A -> outcome B) (x : A) (l : list A) :
  mapM f (x :: l) =
  match f x with
  | Return y =>
      match mapM f l with
      | Return k => Return (y :: k)
      | Raise e => Raise e
      end
  | Raise e => Raise e
  end.
Proof. reflexivity. Qed.


Lemma new_message_text (env : Env) (type : MessageType) (text : str) :
  python env ->
  new_message env type (PStr text) = Return {| type := type; content := PStr text |}.
Proof. intros [_ Hv]. unfold new_message. by rewrite Hv. Qed.



(** A tuple of length 2 with another role becomes a human message of the
    string form of its content only. *)
Lemma convert_item_other_role (env : Env) (role content : pyobj) :
  python env ->
  is_str role "human" = false -> is_str role "ai" = false ->
  is_str role "system" = false ->
  convert_item env (PTuple [role; content]) = Return (Human (py_str env content)).
Proof.
  intros Hpy Hh Ha Hs. cbn [convert_item]. rewrite Hh, Ha, Hs.
  by apply new_message_text.
Qed.



(** The adapter of the examples obeys Python's laws. *)
Lemma env_of_python (answer : outcome ChatResult)
    (tracker : UsageCall -> outcome (option UsageRecord)) :
  python (env_of answer tracker).
Proof. split; reflexivity. Defined.


End DeepSeekAdapter.

(** * More on the symbol normaliser *)

Module SymbolShape.
Import PyStrFacts DateFacts Tushare TushareSymbols.

(** Replacing by the empty text never makes a text longer. *)
Lemma replace_by_nothing_length (s old : str) :
  old <> [] -> length (replace s old []) <= length s.
Proof.
  intros Hold. remember (length s) as n eqn:Hn. revert s Hn.
  induction n as [n IH] using lt_wf_ind. intros s ->.
  destruct s as [|c s]; [by rewrite replace_nil|].
  rewrite replace_cons by done.
  destruct (startswith (c :: s) old) eqn:E.
  - cbn [app]. destruct old as [|o old]; [done|]. cbn [length drop].
    etrans; [apply (IH (length (drop (length old) s))); [|done]|].
    + rewrite length_drop. cbn. lia.
    + rewrite length_drop. cbn. lia.
  - cbn [length]. apply le_n_S. by apply (IH (length s)); [cbn; lia|].
Qed.

(** X1: a symbol written with the exchange in front, ["sh."] or ["sz."]
    followed by any text, is normalised to what the text alone is normalised
    to: the prefix decides nothing, the first character of the rest does. *)
Theorem normalize_symbol_prefixed (s : str) :
  _normalize_symbol ("sh." ++ s) = _normalize_symbol s /\
  _normalize_symbol ("sz." ++ s) = _normalize_symbol s.
Proof.
  rewrite !normalize_symbol_suffix_rule. split; f_equal.
  - exact (strip_prefixes_sh [] s).
  - exact (strip_prefixes_sz [] s).
Qed.

(** X2: whatever the input, the result of [_normalize_symbol] contains the
    separator ['.']; it is the input with its ["sh."] and ["sz."] deleted,
    either as it is or, when that has no ['.'], followed by one of [".SH"],
    [".SZ"], [".BJ"]; so it is at most three characters longer than the
    input. *)
Theorem normalize_symbol_shape (s : str) :
  str_in "." (_normalize_symbol s) = true /\
  (_normalize_symbol s = strip_prefixes s \/
   exists exchange, In exchange [".SH"; ".SZ"; ".BJ"] /\
     str_in "." (strip_prefixes s) = false /\
     _normalize_symbol s = strip_prefixes s ++ exchange) /\
  length (_normalize_symbol s) <= length s + 3.
Proof.
  split; [apply normalize_symbol_has_separator|].
  assert (Hlen : length (strip_prefixes s) <= length s).
  { unfold strip_prefixes.
    etrans; [apply replace_by_nothing_length; done|].
    by apply replace_by_nothing_length. }
  rewrite normalize_symbol_suffix_rule. unfold suffix_rule.
  destruct (str_in "." (strip_prefixes s)) eqn:E.
  - split; [by left|lia].
  - assert (Hsuf : In (exchange_suffix (head (strip_prefixes s)))
                      [".SH"; ".SZ"; ".BJ"]).
    { unfold exchange_suffix.
      repeat (match goal with |- context [match ?p with _ => _ end] => destruct p end;
              try (cbn; tauto)). }
    split.
    + right. eexists. by split; [exact Hsuf|].
    + rewrite length_app.
      destruct Hsuf as [<-|[<-|[<-|[]]]]; cbn [length]; lia.
Qed.

(** X3: on a symbol without the lower-case letter [s] (every code made of
    digits, upper-case letters and dots) normalising twice is normalising
    once, and a symbol that has a ['.'] comes back unchanged. *)
Theorem normalize_symbol_idempotent_without_s (s : str) :
  forallb (fun c => negb (c =? 115)%N) s = true ->
  _normalize_symbol (_normalize_symbol s) = _normalize_symbol s /\
  (str_in "." s = true -> _normalize_symbol s = s).
Proof.
  intros Hs.
  assert (Hstrip : strip_prefixes s = s).
  { unfold strip_prefixes.
    rewrite (replace_absent s "sh."), (replace_absent s "sz."); try done;
      by apply str_in_first_absent. }
  assert (Hout : forallb (fun c => negb (c =? 115)%N) (_normalize_symbol s) = true).
  { rewrite normalize_symbol_suffix_rule, Hstrip. unfold suffix_rule.
    destruct (str_in "." s); [done|]. rewrite forallb_app.
    apply andb_true_iff. split; [exact Hs|]. unfold exchange_suffix.
    repeat (match goal with |- context [match ?p with _ => _ end] => destruct p end;
            try done). }
  split.
  - apply normalize_symbol_canonical.
    + apply normalize_symbol_has_separator.
    + by apply str_in_first_absent.
    + by apply str_in_first_absent.
  - intros Hdot. apply normalize_symbol_canonical; [done|..];
      by apply str_in_first_absent.
Qed.

Lemma normalize_symbol_idempotent_without_s_witness :
  _normalize_symbol (_normalize_symbol "830799") = _normalize_symbol "830799" /\
  _normalize_symbol "000001.SZ" = "000001.SZ".
Proof.
  split.
  - exact (proj1 (normalize_symbol_idempotent_without_s "830799" eq_refl)).
  - exact (proj2 (normalize_symbol_idempotent_without_s "000001.SZ" eq_refl)
             eq_refl).
Defined.

End SymbolShape.

(** * More on the provider's operations *)

Module ProviderBehaviour.
Import PyStrFacts DateFacts Tushare TushareFixtures TushareExamples.
Import TushareSymbols TushareOperations.

(** X4: a provider that is not connected, or has no API object, answers
    from what it has: [get_stock_daily] the empty table and one error line,
    [get_stock_info] the placeholder, [get_financial_data] the empty dict;
    no remote call is made, nothing is written to the cache, the clock is
    not read. *)
Theorem unconnected_provider_stays_local (env : Env) (self : TushareProvider)
    (symbol period : str) (start_date end_date : option str) (w : World) :
  connected self = false \/ api self = None ->
  get_stock_daily env self symbol start_date end_date w =
    (Return empty_frame,
     {| clock_reads := clock_reads w; api_calls := api_calls w;
        cache_saves := cache_saves w; log := log w ++ [NotConnected] |}) /\
  get_stock_info self symbol w = (Return (unknown_info symbol), w) /\
  get_financial_data self symbol period w = (Return ∅, w).
Proof.
  intros H. unfold get_stock_daily, get_stock_info, get_financial_data.
  destruct (connected self), (api self), H; try done.
Qed.

Lemma unconnected_provider_stays_local_witness :
  get_stock_info offline "600000" initial_world
    = (Return (unknown_info "600000"), initial_world) /\
  get_financial_data offline "600000" "20231231" initial_world
    = (Return ∅, initial_world).
Proof.
  pose proof (unconnected_provider_stays_local env offline "600000" "20231231"
                None None initial_world (or_introl eq_refl)) as (_ & H1 & H2).
  split; [exact H1|exact H2].
Defined.

(** X5: what one call of [get_stock_daily] can leave behind: at most one
    remote call, a [daily] query for the normalised symbol; at most one
    cache write, of the very table that is returned, filed under the symbol
    as the caller wrote it and the source ["tushare"], and only by a provider
    whose cache is enabled; and no cache write without a remote call. *)
Theorem get_stock_daily_footprint (env : Env) (self : TushareProvider)
    (symbol : str) (start_date end_date : option str) (w : World) :
  let run := get_stock_daily env self symbol start_date end_date w in
  (api_calls run.2 = api_calls w \/
   exists s e, api_calls run.2 = api_calls w ++ [Daily (_normalize_symbol symbol) s e]) /\
  (cache_saves run.2 = cache_saves w \/
   exists df,
     run.1 = Return df /\ enable_cache self = true /\
     cache_saves run.2 = cache_saves w ++ [(symbol, df, "tushare")]) /\
  (cache_saves run.2 <> cache_saves w -> api_calls run.2 <> api_calls w).
Proof.
  cbv zeta. unfold get_stock_daily.
  destruct (connected self), (api self) as [api|]; run; cbn [fst snd api_calls cache_saves];
    try (split; [by left|split; [by left|done]]).
  repeat (step; cbn [fst snd negb api_calls cache_saves]).
  all: split; [try (by left); right; eauto|].
  all: split; [try (by left); right; eexists; repeat split; eauto|].
  all: try done.
  all: intros _ Hc; apply (f_equal length) in Hc; rewrite length_app in Hc;
       cbn in Hc; lia.
Qed.



(** X7: when [stock_basic] answers a non-empty table, [get_stock_info]
    reads its first row only: with a [ts_code] and a [name] in that row it
    returns them next to the symbol as the caller wrote it and the source
    ["tushare"], and the empty text for each of [area], [industry],
    [market], [list_date] that the row lacks; without a [ts_code] or
    without a [name] it returns the placeholder. *)
Theorem get_stock_info_found (self : TushareProvider) (api : TushareApi)
    (symbol : str) (w : World) (basic_info : DataFrame) (row : list value)
    (others : list (list value)) :
  connected self = true -> Tushare.api self = Some api ->
  stock_basic api (_normalize_symbol symbol) STOCK_BASIC_FIELDS =
    Return (Some basic_info) ->
  columns basic_info <> [] -> rows basic_info = row :: others ->
  let info := labelled (columns basic_info) row in
  let answer := (get_stock_info self symbol w).1 in
  (forall ts_code name,
     info !! "ts_code" = Some ts_code -> info !! "name" = Some name ->
     answer =
       Return {[ "symbol" := VStr symbol; "ts_code" := ts_code; "name" := name;
                 "area" := default (VStr "") (info !! "area");
                 "industry" := default (VStr "") (info !! "industry");
                 "market" := default (VStr "") (info !! "market");
                 "list_date" := default (VStr "") (info !! "list_date");
                 "source" := VStr "tushare" ]}) /\
  (info !! "ts_code" = None \/ info !! "name" = None ->
   answer = Return (unknown_info symbol)).
Proof.
  intros Hc Ha Hb Hcols Hrows info answer. subst answer.
  unfold get_stock_info. rewrite Hc, Ha. run. rewrite Hb.
  assert (He : empty basic_info = false).
  { unfold empty. rewrite Hrows. by destruct (columns basic_info). }
  rewrite He. cbn [negb]. unfold iloc0. rewrite Hrows. fold info. split.
  - intros ts_code name H1 H2.
    assert (G1 : getitem info "ts_code" = Return ts_code)
      by (unfold getitem, str, char in *; by rewrite H1).
    assert (G2 : getitem info "name" = Return name)
      by (unfold getitem, str, char in *; by rewrite H2).
    rewrite G1, G2. reflexivity.
  - intros Hmiss.
    assert (G : (exists e, getitem info "ts_code" = Raise e) \/
                (exists v e, getitem info "ts_code" = Return v /\
                             getitem info "name" = Raise e)).
    { unfold getitem, str, char in *. destruct Hmiss as [H|H].
      - left. rewrite H. by eexists.
      - destruct (info !! "ts_code"); [right|left]; rewrite ?H; eauto. }
    destruct G as [[e ->]|(v & e & -> & ->)]; reflexivity.
Qed.

Lemma get_stock_info_found_witness :
  (get_stock_info (provider listed_api) "sh.600000" initial_world).1 =
    Return {[ "symbol" := VStr "sh.600000"; "ts_code" := VStr "600000.SH";
              "name" := VStr "SPD Bank"; "area" := VStr "Shanghai";
              "industry" := VStr "Banking"; "market" := VStr "";
              "list_date" := VStr ""; "source" := VStr "tushare" ]}.
Proof.
  pose proof (get_stock_info_found (provider listed_api) listed_api "sh.600000"
                initial_world shares _ _ eq_refl eq_refl eq_refl
                ltac:(discriminate) eq_refl) as [H _].
  cbv zeta in H.
  rewrite (H (VStr "600000.SH") (VStr "SPD Bank"))
    by (vm_compute; reflexivity).
  f_equal.
Defined.

(** X8: with a connected provider [get_financial_data] returns a dict with
    exactly the three statements, whatever the three remote calls do: a
    statement whose call raised, answered [None] or answered an empty table
    is the empty list, any other has one record for each row of the answer;
    each call that raised is logged once, in the order of the calls. *)
Theorem financial_statements_are_independent (self : TushareProvider)
    (api : TushareApi) (symbol period : str) (w : World) :
  connected self = true -> Tushare.api self = Some api ->
  let ts_code := _normalize_symbol symbol in
  let balance := balancesheet api ts_code period BALANCE_SHEET_FIELDS in
  let profit := income api ts_code period INCOME_FIELDS in
  let cash := cashflow api ts_code period CASH_FLOW_FIELDS in
  let records answer :=
    match answer with
    | Return (Some df) => if empty df then 0 else length (rows df)
    | _ => 0
    end in
  let run := get_financial_data self symbol period w in
  exists balance_sheet income_statement cash_flow,
    run.1 = Return ({[ "balance_sheet" := balance_sheet;
                       "income_statement" := income_statement;
                       "cash_flow" := cash_flow ]} : Financials) /\
    length balance_sheet = records balance /\
    length income_statement = records profit /\
    length cash_flow = records cash /\
    log run.2 = log w ++ failure BalanceSheetFailed balance
                      ++ failure IncomeFailed profit
                      ++ failure CashFlowFailed cash.
Proof.
  intros Hc Ha. cbv zeta.
  destruct (get_financial_data_connected self api symbol period w Hc Ha) as [H _].
  do 3 eexists. split; [exact H|].
  assert (Hlen : forall answer,
            length (statement answer) =
            match answer with
            | Return (Some df) => if empty df then 0 else length (rows df)
            | _ => 0
            end).
  { intros [[df|]|e]; cbn; try done. unfold to_dict_records.
    destruct (empty df); cbn; [done|]. by rewrite length_map. }
  rewrite !Hlen. repeat split.
  unfold get_financial_data. rewrite Hc, Ha. run.
  destruct (balancesheet api _ period BALANCE_SHEET_FIELDS);
    destruct (income api _ period INCOME_FIELDS);
    destruct (cashflow api _ period CASH_FLOW_FIELDS);
    cbn [fst snd log failure app]; rewrite <- ?app_assoc, ?app_nil_r; reflexivity.
Qed.

Lemma financial_statements_are_independent_witness :
  exists balance_sheet income_statement cash_flow,
    (get_financial_data (provider up_api) "600000" "20231231" initial_world).1 =
      Return ({[ "balance_sheet" := balance_sheet;
                 "income_statement" := income_statement;
                 "cash_flow" := cash_flow ]} : Financials) /\
    length balance_sheet = 0 /\ length income_statement = 1 /\
    length cash_flow = 1 /\
    log (get_financial_data (provider up_api) "600000" "20231231"
           initial_world).2 = [BalanceSheetFailed RemoteError].
Proof.
  exact (financial_statements_are_independent (provider up_api) up_api "600000"
           "20231231" initial_world eq_refl eq_refl).
Defined.

End ProviderBehaviour.

(** * More on the DeepSeek chat adapter *)

Module AdapterBehaviour.
Import PyStrFacts DateFacts DeepSeek DeepSeekFixtures DeepSeekExamples.
Import DeepSeekAdapter.

(** X9: [_generate] hands the parent class the keyword arguments it was
    given without [session_id] and [analysis_type], and every other one
    unchanged; this holds whether the parent call returns or raises. *)
Theorem custom_keywords_stay_behind (env : Env) (self : ChatDeepSeek)
    (messages : list BaseMessage) (stop : option (list str))
    (kwargs : gmap str pyobj) (w : World) :
  exists forwarded : gmap str pyobj,
    dispatched (_generate env self messages stop kwargs w).2 =
      dispatched w ++ [(messages, stop, forwarded)] /\
    forwarded !! ("session_id" : str) = None /\
    forwarded !! ("analysis_type" : str) = None /\
    forall key : str, key <> "session_id" -> key <> "analysis_type" ->
      forwarded !! key = kwargs !! key.
Proof.
  exists (delete ("analysis_type" : str) (delete ("session_id" : str) kwargs)).
  split.
  - destruct (parent_generate env messages stop
                (delete "analysis_type" (delete "session_id" kwargs)))
      as [result|e] eqn:E.
    + destruct (generate_dispatch_returns env self messages stop kwargs w result E)
        as (lines & -> & _). done.
    + by rewrite (generate_dispatch_raises env self messages stop kwargs w e E).
  - split; [|split].
    + rewrite lookup_delete_ne by done. apply lookup_delete_eq.
    + apply lookup_delete_eq.
    + intros key H1 H2. by rewrite !lookup_delete_ne.
Qed.

(** X10: one call of [_generate] makes at most one [track_usage] call, and
    makes one only when the parent call returned, tracking is on, there
    is a tracker, and one of the two counts is positive; the call is booked
    to the provider ["deepseek"] under the adapter's model name, with the
    counts that were taken. *)
Theorem at_most_one_usage_record (env : Env) (self : ChatDeepSeek)
    (messages : list BaseMessage) (stop : option (list str))
    (kwargs : gmap str pyobj) (w : World) :
  let run := _generate env self messages stop kwargs w in
  tracked run.2 = tracked w \/
  exists call result,
    tracked run.2 = tracked w ++ [call] /\
    run.1 = Return result /\
    TOKEN_TRACKING_ENABLED env = true /\ is_Some (token_tracker env) /\
    provider call = "deepseek" /\ model_name_used call = model_name self /\
    (input_tokens call, output_tokens call) = used_tokens env messages result /\
    (0 < input_tokens call \/ 0 < output_tokens call)%Z.
Proof.
  cbv zeta.
  destruct (parent_generate env messages stop
              (delete "analysis_type" (delete "session_id" kwargs)))
    as [result|e] eqn:E.
  - destruct (generate_dispatch_returns env self messages stop kwargs w result E)
      as (lines & -> & _). cbn [fst snd tracked]. unfold recorded.
    destruct (used_tokens env messages result) as [i o] eqn:Hu.
    destruct (TOKEN_TRACKING_ENABLED env), (token_tracker env) as [tracker|];
      try (left; by rewrite app_nil_r).
    destruct ((0 <? i)%Z || (0 <? o)%Z) eqn:Hpos;
      [|left; by rewrite app_nil_r].
    right. eexists _, result.
    split; [done|]. split; [done|]. split; [done|]. split; [by eexists|].
    split; [done|]. split; [done|]. split; [done|].
    unfold usage_call. cbn [input_tokens output_tokens].
    apply orb_true_iff in Hpos as [?%Z.ltb_lt|?%Z.ltb_lt]; lia.
  - left. by rewrite (generate_dispatch_raises env self messages stop kwargs w e E).
Qed.

(** The decimal digits of a natural number are digits. *)
Lemma digits_are_digits (fuel : nat) (n : Z) :
  (0 <= n)%Z -> Z.to_nat n <= fuel -> forallb is_digit (digits fuel n) = true.
Proof.
  revert n; induction fuel as [|fuel IH]; intros n Hn Hf.
  - cbn. rewrite is_digit_digit by lia. done.
  - destruct (Z.ltb_spec n 10) as [Hlt|Hge].
    + rewrite digits_below_ten by done. cbn. by rewrite is_digit_digit by lia.
    + rewrite digits_from_ten, forallb_app by done.
      rewrite IH by zdiv. cbn. by rewrite is_digit_digit by zdiv.
Qed.

(** A number below [10 ^ (k + 1)] has at most [k + 1] digits. *)
Lemma digits_length (k fuel : nat) (n : Z) :
  (0 <= n < 10 ^ Z.of_nat (S k))%Z -> Z.to_nat n <= fuel ->
  1 <= length (digits fuel n) <= S k.
Proof.
  revert fuel n; induction k as [|k IH]; intros fuel n Hn Hf.
  - rewrite digits_below_ten by (change (10 ^ Z.of_nat 1)%Z with 10%Z in Hn; lia).
    cbn. lia.
  - destruct (Z.ltb_spec n 10) as [Hlt|Hge].
    + rewrite digits_below_ten by done. cbn. lia.
    + destruct fuel as [|fuel]; [lia|].
      rewrite digits_from_ten, length_app by done. cbn [length].
      assert (Hp : (10 ^ Z.of_nat (S (S k)) = 10 * 10 ^ Z.of_nat (S k))%Z).
      { rewrite (Nat2Z.inj_succ (S k)), Z.pow_succ_r by lia. done. }
      specialize (IH fuel (n / 10)%Z).
      assert (0 <= n / 10 < 10 ^ Z.of_nat (S k))%Z.
      { split; [zdiv|]. apply Z.div_lt_upper_bound; lia. }
      assert (Z.to_nat (n / 10) <= fuel) by zdiv.
      specialize (IH ltac:(done) ltac:(done)). lia.
Qed.

(** The session id and the analysis type of a [track_usage] call: the ones
    passed, or the defaults. *)
Lemma usage_call_defaults (env : Env) (self : ChatDeepSeek)
    (messages : list BaseMessage) (session analysis : pyobj)
    (input output : Z) :
  let call := usage_call env self messages session analysis input output in
  (session <> PNone -> session_id call = session) /\
  (analysis <> PNone -> analysis_type call = analysis) /\
  (analysis = PNone -> analysis_type call = PStr "stock_analysis") /\
  (session = PNone ->
   exists number,
     session_id call = PStr ("deepseek_" ++ number) /\
     number = str_of_int
                (py_hash env (py_str env (PList (map object_of messages)))
                 mod 10000) /\
     forallb is_digit number = true /\ 1 <= length number <= 4).
Proof.
  cbv zeta. unfold usage_call. cbn [session_id analysis_type].
  split; [by destruct session|]. split; [by destruct analysis|].
  split; [by intros ->|].
  intros ->. eexists. split; [reflexivity|]. split; [reflexivity|].
  set (h := (py_hash env (py_str env (PList (map object_of messages))) mod 10000)%Z).
  assert (Hh : (0 <= h < 10000)%Z) by (apply Z.mod_pos_bound; lia).
  unfold str_of_int. destruct (Z.ltb_spec h 0); [lia|]. split.
  - apply digits_are_digits; lia.
  - apply (digits_length 3); [|lia]. change (10 ^ Z.of_nat 4)%Z with 10000%Z. lia.
Qed.

(** X11: the [track_usage] call that [_generate] makes carries the
    [session_id] and the [analysis_type] that the caller passed; a missing
    or [None] analysis type becomes ["stock_analysis"], and a missing or
    [None] session id becomes ["deepseek_"] followed by one to four digits,
    the hash of the messages' string form modulo 10000. *)
Theorem usage_record_defaults (env : Env) (self : ChatDeepSeek)
    (messages : list BaseMessage) (stop : option (list str))
    (kwargs : gmap str pyobj) (w : World) (call : UsageCall) :
  tracked (_generate env self messages stop kwargs w).2 = tracked w ++ [call] ->
  let session := default PNone (kwargs !! "session_id") in
  let analysis := default PNone (kwargs !! "analysis_type") in
  (session <> PNone -> session_id call = session) /\
  (analysis <> PNone -> analysis_type call = analysis) /\
  (analysis = PNone -> analysis_type call = PStr "stock_analysis") /\
  (session = PNone ->
   exists number,
     session_id call = PStr ("deepseek_" ++ number) /\
     number = str_of_int
                (py_hash env (py_str env (PList (map object_of messages)))
                 mod 10000) /\
     forallb is_digit number = true /\ 1 <= length number <= 4).
Proof.
  intros Htr.
  assert (Hcall : call =
            usage_call env self messages
              (default PNone (kwargs !! "session_id"))
              (default PNone (kwargs !! "analysis_type"))
              (input_tokens call) (output_tokens call)).
  { destruct (parent_generate env messages stop
                (delete "analysis_type" (delete "session_id" kwargs)))
      as [result|e] eqn:E.
    - destruct (generate_dispatch_returns env self messages stop kwargs w result E)
        as (lines & Hrun & _).
      rewrite Hrun in Htr. cbn [snd tracked] in Htr.
      apply app_inv_head in Htr. unfold recorded in Htr.
      rewrite lookup_delete_ne in Htr by done.
      destruct (used_tokens env messages result) as [i o].
      destruct (TOKEN_TRACKING_ENABLED env), (token_tracker env); try done.
      destruct ((0 <? i)%Z || (0 <? o)%Z); [|done].
      by injection Htr as <-.
    - rewrite (generate_dispatch_raises env self messages stop kwargs w e E) in Htr.
      cbn [snd tracked] in Htr. apply (f_equal length) in Htr.
      rewrite length_app in Htr. cbn in Htr. lia. }
  cbv zeta. rewrite Hcall. apply usage_call_defaults.
Qed.

Lemma usage_record_defaults_witness :
  map session_id
      (tracked (_generate (env_of (Return (reply None)) booking) deepseek
                          question None ∅ initial_world).2)
    = [PStr "deepseek_4242"] /\
  map analysis_type
      (tracked (_generate (env_of (Return (reply None)) booking) deepseek
                          question None
                          {[ "analysis_type" := PStr "news" ]} initial_world).2)
    = [PStr "news"].
Proof.
  split.
  - set (call := usage_call (env_of (Return (reply None)) booking) deepseek
                   question PNone PNone 7 20).
    assert (Htr : tracked (_generate (env_of (Return (reply None)) booking)
                             deepseek question None ∅ initial_world).2
                  = tracked initial_world ++ [call])
      by (vm_compute; reflexivity).
    destruct (usage_record_defaults _ _ _ _ _ _ _ Htr) as (_ & _ & _ & Hs).
    destruct (Hs eq_refl) as (number & Hid & Hnum & _).
    rewrite Htr.
    change (map session_id (tracked initial_world ++ [call]))
      with [session_id call].
    rewrite Hid, Hnum. vm_compute. reflexivity.
  - set (call := usage_call (env_of (Return (reply None)) booking) deepseek
                   question PNone (PStr "news") 7 20).
    assert (Htr : tracked (_generate (env_of (Return (reply None)) booking)
                             deepseek question None
                             {[ "analysis_type" := PStr "news" ]}
                             initial_world).2
                  = tracked initial_world ++ [call])
      by (vm_compute; reflexivity).
    destruct (usage_record_defaults _ _ _ _ _ _ _ Htr) as (_ & Ha & _).
    rewrite Htr.
    change (map analysis_type (tracked initial_world ++ [call]))
      with [analysis_type call].
    rewrite Ha by (vm_compute; discriminate). vm_compute. reflexivity.
Defined.

(** The characters of a list of contents, one content at a time. *)
Lemma chars_cons (env : Env) (c : pyobj) (l : list pyobj) :
  chars env (c :: l) = (len (py_str env c) + chars env l)%Z.
Proof. reflexivity. Qed.

(** A count of characters is not negative. *)
Lemma chars_nonnegative (env : Env) (l : list pyobj) : (0 <= chars env l)%Z.
Proof.
  induction l as [|c l IH]; [done|]. rewrite chars_cons. unfold len. lia.
Qed.

(** The characters of two lists add up. *)
Lemma chars_app (env : Env) (a b : list pyobj) :
  chars env (a ++ b) = (chars env a + chars env b)%Z.
Proof.
  induction a as [|c a IH]; [done|].
  rewrite <- app_comm_cons, !chars_cons, IH. lia.
Qed.

(** X12: the estimate of the input tokens depends on the messages through
    the total of their characters only: it is the same for the messages in
    any order, it does not go down when messages are added, it is 1 for no
    message at all, and twice the estimate is at most the total unless the
    total is below 2. *)
Theorem estimate_depends_on_total (env : Env)
    (messages messages' more : list BaseMessage) :
  (Permutation messages messages' ->
   _estimate_input_tokens env messages = _estimate_input_tokens env messages') /\
  (_estimate_input_tokens env messages <=
     _estimate_input_tokens env (messages ++ more))%Z /\
  _estimate_input_tokens env [] = 1%Z /\
  (2 * _estimate_input_tokens env messages <=
     Z.max 2 (chars env (map content messages)))%Z.
Proof.
  rewrite !estimate_input_tokens_chars.
  split; [|split; [|split]].
  - intros Hp. f_equal. f_equal.
    induction Hp as [|x l l' _ IH|x y l|l l' l'' _ IH1 _ IH2];
      rewrite ?map_cons, ?chars_cons; [done|lia|lia|lia].
  - rewrite map_app, chars_app.
    pose proof (chars_nonnegative env (map content more)).
    pose proof (chars_nonnegative env (map content messages)).
    zdiv.
  - done.
  - pose proof (chars_nonnegative env (map content messages)). zdiv.
Qed.

(** What the recording step logs, by what the tracker answers. *)
Lemma record_usage_log (env : Env)
    (tracker : UsageCall -> outcome (option UsageRecord)) (usage : UsageCall)
    (w : World) :
  log (record_usage env tracker usage w).2 =
  log w ++
    match tracker usage with
    | Return (Some r) =>
        (if Qeq_bool (cost r) 0 then ZeroCost else CallCost (cost r)) ::
        match log_token_usage env usage (cost r) with
        | Return _ => []
        | Raise e => [TokenTrackingFailed e]
        end
    | Return None => [NoUsageRecord]
    | Raise e => [TokenTrackingFailed e]
    end.
Proof.
  unfold record_usage. run.
  destruct (tracker usage) as [[r|]|e]; cbn [log snd]; try done.
  destruct (Qeq_bool (cost r) 0);
    destruct (log_token_usage env usage (cost r)); cbn [log snd];
    by rewrite <- ?app_assoc.
Qed.

(** X13: after a parent call that returned, what [_generate] logs about
    the usage record: a tracker that gives no record costs a warning, a
    record whose cost is zero costs another warning, any other record has
    its cost logged; in each case the line follows the one with the token
    counts, and the result of the parent call is returned. *)
Theorem usage_record_outcomes (env : Env) (self : ChatDeepSeek)
    (messages : list BaseMessage) (stop : option (list str))
    (kwargs : gmap str pyobj) (w : World) (result : ChatResult)
    (tracker : UsageCall -> outcome (option UsageRecord)) (usage : UsageCall) :
  parent_generate env messages stop
    (delete "analysis_type" (delete "session_id" kwargs)) = Return result ->
  token_tracker env = Some tracker ->
  let run := _generate env self messages stop kwargs w in
  tracked run.2 = tracked w ++ [usage] ->
  run.1 = Return result /\
  (tracker usage = Return None ->
   log run.2 = log w ++ [token_line env messages result; NoUsageRecord]) /\
  (forall r, tracker usage = Return (Some r) ->
     log_token_usage env usage (cost r) = Return tt ->
     log run.2 =
       log w ++ [token_line env messages result;
                 if Qeq_bool (cost r) 0 then ZeroCost else CallCost (cost r)]).
Proof.
  intros Hp Ht run Hu. subst run.
  split.
  { destruct (generate_dispatch_returns env self messages stop kwargs w result Hp)
      as (lines & -> & _). done. }
  revert Hu. unfold _generate.
  cbv [try_except mbind M_bind mret M_ret dispatch].
  rewrite Hp, count_tokens_run. cbn [tracked log dispatched].
  destruct (used_tokens env messages result) as [i o].
  rewrite Ht.
  destruct (TOKEN_TRACKING_ENABLED env);
    [|cbn [snd tracked]; intros Hu; apply (f_equal length) in Hu;
      rewrite length_app in Hu; cbn in Hu; lia].
  destruct ((0 <? i)%Z || (0 <? o)%Z);
    [|cbn [snd tracked]; intros Hu; apply (f_equal length) in Hu;
      rewrite length_app in Hu; cbn in Hu; lia].
  set (u := usage_call _ _ _ _ _ _ _).
  set (w1 := {| dispatched := _; tracked := tracked w; log := _ |}).
  pose proof (record_usage_log env tracker u w1) as Hlog.
  destruct (record_usage_run env tracker u w1) as (lines & Hrun & _).
  rewrite Hrun in Hlog |- *. cbn [snd tracked log] in Hlog |- *.
  intros Hu. apply app_inv_head in Hu. injection Hu as ->.
  rewrite Hlog. subst w1. cbn [log]. rewrite <- app_assoc. split.
  - by intros ->.
  - intros r -> ->. done.
Qed.

Lemma usage_record_outcomes_witness :
  log (_generate (env_of (Return (reply (Some (block 50 20)))) free_of_charge)
         deepseek question None ∅ initial_world).2
    = [ActualTokens 50 20; ZeroCost].
Proof.
  refine (proj2 (proj2 (usage_record_outcomes
            (env_of (Return (reply (Some (block 50 20)))) free_of_charge)
            deepseek question None ∅ initial_world _ free_of_charge _
            eq_refl eq_refl _)) {| cost := 0 |} eq_refl eq_refl).
  vm_compute. reflexivity.
Defined.

(** X14: messages given to [invoke] are the messages it works on: a list
    of messages, a tuple of messages and the messages of a [PromptValue]
    are taken as they are, in their order and with their roles, and the
    empty list gives no message. *)
Theorem messages_pass_through (env : Env) (messages : list BaseMessage) :
  input_messages env (InputList (map object_of messages)) = Return messages /\
  input_messages env (InputTuple (map object_of messages)) = Return messages /\
  input_messages env (InputPromptValue messages) = Return messages /\
  input_messages env (InputList []) = Return [].
Proof.
  assert (Hall : forallb is_message (map object_of messages) = true).
  { by induction messages as [|[t c] l IH]. }
  assert (Homap : omap message_of (map object_of messages) = messages).
  { induction messages as [|[t c] l IH]; [done|]. cbn. f_equal.
    apply IH. by cbn in Hall. }
  assert (Hmap : mapM (convert_item env) (map object_of messages) = Return messages).
  { clear. induction messages as [|[t c] l IH]; [done|].
    cbn [map]. rewrite mapM_outcome_cons. cbn [object_of convert_item type content].
    by rewrite IH. }
  repeat split.
  - cbn [input_messages]. by rewrite Hall, Homap.
  - cbn [input_messages]. unfold convert_sequence. by rewrite Hmap.
Qed.

(** X15: when the conversion of one item of a sequence raises, the items
    that were converted before it are dropped: the whole input becomes one
    human message, the string form of the list or of the tuple. *)
Theorem failed_conversion_collapses (env : Env) (items : list pyobj) (e : exn) :
  python env ->
  mapM (convert_item env) items = Raise e ->
  input_messages env (InputList items) =
    Return [Human (py_str env (PList items))] /\
  input_messages env (InputTuple items) =
    Return [Human (py_str env (PTuple items))].
Proof.
  intros Hpy He.
  assert (Hnot : forallb is_message items = false).
  { destruct (forallb is_message items) eqn:E; [|done]. exfalso.
    clear Hpy. revert e He. induction items as [|item items IH]; [done|].
    cbn in E. apply andb_true_iff in E as [Hi Hr]. intros e.
    rewrite mapM_outcome_cons. destruct item; try done. cbn [convert_item].
    destruct (mapM (convert_item env) items) eqn:E'; [done|].
    intros _. by apply (IH Hr e0). }
  cbn [input_messages]. unfold convert_sequence. rewrite Hnot, He.
  by rewrite !(new_message_text env HumanMessage _ Hpy).
Qed.

Lemma failed_conversion_collapses_witness :
  input_messages (env_of (Return (reply None)) booking)
    (InputList [PStr "hello"; PTuple [PStr "system"; PInt 5]])
  = Return [Human "<object>"].
Proof.
  apply (failed_conversion_collapses (env_of (Return (reply None)) booking)
           [PStr "hello"; PTuple [PStr "system"; PInt 5]]
           (Exn "ValidationError" "content") (env_of_python _ _)).
  reflexivity.
Defined.



End AdapterBehaviour.

(** * Making the provider *)

Module ProviderSetup.
Import Tushare TushareFixtures TushareSetup TushareExamples.

(** Unfolding the effects of the constructor. *)
Ltac setup :=
  cbv [try_except mbind M_bind mret M_ret raise lift tell ask event
       TushareSetup.logger operate].

(** No event of the list is the one looked for. *)
Ltac absent HIn :=
  cbn [In] in HIn;
  repeat (destruct HIn as [HIn|HIn]; [discriminate HIn|]);
  contradiction.

(** The event looked for is the token that was set. *)
Ltac found HIn :=
  cbn [In] in HIn;
  repeat (destruct HIn as [HIn|HIn]; [first [discriminate HIn|injection HIn as <-]|]);
  [..|contradiction].

(** The constructor, by what the surroundings answer. *)
Lemma init_cases (sur : Surroundings) (token : option str) (enable_cache : bool)
    (p : Process) :
  let run := __init__ sur token enable_cache p in
  exists provider events,
    run = (Return provider,
           {| _tushare_provider := _tushare_provider p;
              setup := setup p ++ events; calls := calls p |}) /\
    (connected provider = true <-> is_Some (api provider)) /\
    (Tushare.enable_cache provider = true <-> is_Some (cache_manager provider)) /\
    (forall cm, cache_manager provider = Some cm ->
       enable_cache = true /\ CACHE_AVAILABLE sur = true /\
       get_cache sur = Return cm) /\
    (forall a, api provider = Some a ->
       exists m t,
         ts sur = Some m /\ t <> [] /\ set_token m t = Return tt /\
         pro_api m t = Return a /\ In (SetToken t) events /\
         (token = Some t \/
          truthy token = false /\ getenv sur "TUSHARE_TOKEN" = Some t)) /\
    (truthy token = true -> forall name, ~ In (Getenv name) events) /\
    (truthy token = false -> In (Getenv "TUSHARE_TOKEN") events) /\
    (forall t, In (SetToken t) events ->
       t <> [] /\
       (token = Some t \/
        truthy token = false /\ getenv sur "TUSHARE_TOKEN" = Some t)) /\
    (truthy token = false -> truthy (getenv sur "TUSHARE_TOKEN") = false ->
       connected provider = false /\ api provider = None /\
       last events = Some (Logged TokenMissing) /\
       forall t, ~ In (SetToken t) events).
Proof.
  cbv zeta. unfold __init__.
  destruct enable_cache, (CACHE_AVAILABLE sur) eqn:Hca;
    cbn [andb]; setup;
    [destruct (get_cache sur) as [cm|ec] eqn:Hgc|..];
    cbn [fst snd _tushare_provider setup calls].
  all: destruct token as [[|c t]|]; cbn [truthy negb];
    cbn [fst snd _tushare_provider setup calls].
  all: try (destruct (getenv sur "TUSHARE_TOKEN") as [[|c t]|] eqn:Hge);
    cbn [fst snd _tushare_provider setup calls].
  all: try (destruct (ts sur) as [m|] eqn:Hts;
            [destruct (set_token m (c :: t)) as [[]|es] eqn:Hst;
             [destruct (pro_api m (c :: t)) as [a|ea] eqn:Hpa|]|]);
    cbn [fst snd _tushare_provider setup calls].
  all: rewrite <- ?app_assoc; cbn [app].
  all: do 2 eexists; split; [reflexivity|].
  all: cbn [connected Tushare.enable_cache api cache_manager truthy].
  all: unfold is_Some; split_and!.
  all: try (split; [intros H; first [discriminate H|by eexists]
                   |intros [? H]; first [discriminate H|reflexivity]]).
  all: try (intros ? H; first [discriminate H|by injection H as <-]).
  all: try (intros ? H; injection H as <-; exists m, (c :: t);
            split_and!; try done; [cbn [In]; auto 10|first [by left|by right]]).
  all: try (intros H; first [discriminate H|intros name HIn; absent HIn]).
  all: try (intros H; first [discriminate H|solve [cbn [In]; auto 10]]).
  all: try (intros ? HIn;
            first [absent HIn
                  |found HIn; (split; [discriminate|first [by left|by right]])]).
  all: try (intros H1 H2;
            first [discriminate H1|discriminate H2
                  |split_and!; [reflexivity|reflexivity|reflexivity|
                                intros ? HIn; absent HIn]]).
Qed.

(** X17: making a provider never fails, whatever the cache manager and the
    [tushare] library do: the constructor returns a provider that is
    connected exactly when it has an API object, and whose cache is enabled
    exactly when it has a cache manager, which takes the caller's flag, the
    import of the cache module and a [get_cache()] that returns; a provider
    with an API object got it from [pro_api()] after [set_token] took a
    token that is not empty. *)
Theorem provider_is_made_consistent (sur : Surroundings) (token : option str)
    (enable_cache : bool) (p : Process) :
  let run := __init__ sur token enable_cache p in
  exists provider,
    run.1 = Return provider /\
    (connected provider = true <-> is_Some (api provider)) /\
    (Tushare.enable_cache provider = true <-> is_Some (cache_manager provider)) /\
    (forall cm, cache_manager provider = Some cm ->
       enable_cache = true /\ CACHE_AVAILABLE sur = true /\
       get_cache sur = Return cm) /\
    (forall a, api provider = Some a ->
       exists m t,
         ts sur = Some m /\ t <> [] /\ set_token m t = Return tt /\
         pro_api m t = Return a) /\
    _tushare_provider run.2 = _tushare_provider p /\
    calls run.2 = calls p.
Proof.
  cbv zeta.
  destruct (init_cases sur token enable_cache p)
    as (provider & events & -> & H1 & H2 & H3 & H4 & _).
  exists provider. split_and!; try done.
  intros a Ha. destruct (H4 a Ha) as (m & t & ? & ? & ? & ? & _).
  by exists m, t.
Qed.

(** X18: the token that the constructor sets is the one it was given, and
    the environment is not read then; without a token argument, or with an
    empty one, it reads [TUSHARE_TOKEN] and sets its value; it never sets an
    empty token. *)
Theorem token_argument_comes_first (sur : Surroundings) (token : option str)
    (enable_cache : bool) (p : Process) :
  exists events,
    setup (__init__ sur token enable_cache p).2 = setup p ++ events /\
    (forall t, In (SetToken t) events -> t <> []) /\
    (forall given, token = Some given -> given <> [] ->
       (forall name, ~ In (Getenv name) events) /\
       (forall t, In (SetToken t) events -> t = given)) /\
    (token = None \/ token = Some [] ->
       In (Getenv "TUSHARE_TOKEN") events /\
       (forall t, In (SetToken t) events ->
          getenv sur "TUSHARE_TOKEN" = Some t)).
Proof.
  destruct (init_cases sur token enable_cache p)
    as (provider & events & -> & _ & _ & _ & _ & H5 & H6 & H7 & _).
  exists events. split_and!; [done|..].
  - intros t Ht. by destruct (H7 t Ht).
  - intros given -> Hg.
    assert (Htr : truthy (Some given) = true) by (by destruct given).
    split; [by apply H5|].
    intros t Ht. destruct (H7 t Ht) as [_ [[= ->]|[Hf _]]]; [done|].
    by rewrite Htr in Hf.
  - intros Hno.
    assert (Hf : truthy token = false) by (by destruct Hno as [->| ->]).
    split; [by apply H6|].
    intros t Ht. destruct (H7 t Ht) as [Hne [->|[_ Hg]]]; [|done].
    by destruct Hno as [Hno|[= ->]].
Qed.

(** X19: a provider made without a token (none given, or an empty one, and
    [TUSHARE_TOKEN] not set or empty) is not connected: the constructor
    warns and sets no token, and every operation of that provider answers
    its fallback without a remote call. *)
Theorem provider_without_token_answers_locally (sur : Surroundings)
    (token : option str) (enable_cache : bool) (p : Process) :
  truthy token = false -> truthy (getenv sur "TUSHARE_TOKEN") = false ->
  exists provider events,
    __init__ sur token enable_cache p =
      (Return provider,
       {| _tushare_provider := _tushare_provider p;
          setup := setup p ++ events; calls := calls p |}) /\
    last events = Some (Logged TokenMissing) /\
    (forall t, ~ In (SetToken t) events) /\
    connected provider = false /\
    forall env symbol period start_date end_date w,
      (get_stock_daily env provider symbol start_date end_date w).1 =
        Return empty_frame /\
      api_calls (get_stock_daily env provider symbol start_date end_date w).2 =
        api_calls w /\
      get_stock_info provider symbol w = (Return (unknown_info symbol), w) /\
      get_financial_data provider symbol period w = (Return ∅, w).
Proof.
  intros Ht He.
  destruct (init_cases sur token enable_cache p)
    as (provider & events & -> & _ & _ & _ & _ & _ & _ & _ & H8).
  destruct (H8 Ht He) as (Hc & Ha & Hl & Hs).
  exists provider, events. split_and!; try done.
  intros env symbol period start_date end_date w.
  unfold get_stock_daily, get_stock_info, get_financial_data.
  by rewrite Hc.
Qed.

Lemma provider_without_token_answers_locally_witness :
  exists provider,
    (__init__ no_token (Some "") true initial_process).1 = Return provider /\
    connected provider = false /\
    get_stock_info provider "600000" initial_world =
      (Return (unknown_info "600000"), initial_world).
Proof.
  destruct (provider_without_token_answers_locally no_token (Some "") true
              initial_process eq_refl eq_refl)
    as (provider & events & Hrun & _ & _ & Hc & Hops).
  exists provider. rewrite Hrun. split; [done|]. split; [done|].
  by destruct (Hops env "600000" "20231231" None None initial_world)
    as (_ & _ & Hinfo & _).
Defined.


(** The global provider, once made, is what [get_tushare_provider]
    returns. *)
Lemma get_tushare_provider_cases (sur : Surroundings) (p : Process) :
  exists provider events,
    get_tushare_provider sur p =
      (Return provider,
       {| _tushare_provider := Some provider; setup := setup p ++ events;
          calls := calls p |}) /\
    (forall existing, _tushare_provider p = Some existing ->
       provider = existing /\ events = []) /\
    (_tushare_provider p = None ->
       __init__ sur None true p =
         (Return provider,
          {| _tushare_provider := None; setup := setup p ++ events;
             calls := calls p |})).
Proof.
  unfold get_tushare_provider. setup.
  destruct (_tushare_provider p) as [existing|] eqn:Hg.
  - exists existing, []. rewrite app_nil_r. split_and!; [|by intros ? [= <-]|done].
    destruct p; cbn in *; by subst.
  - destruct (init_cases sur None true p)
      as (provider & events & Hrun & _).
    rewrite Hrun, Hg. cbn [fst snd _tushare_provider setup calls].
    exists provider, events. by split_and!.
Qed.

(** X20: the module keeps one provider: the first [get_tushare_provider]
    makes it, and every later call returns that very provider and does
    nothing else, whatever the surroundings have become in between. *)
Theorem global_provider_is_made_once (sur sur' : Surroundings) (p : Process) :
  let first := get_tushare_provider sur p in
  let second := get_tushare_provider sur' first.2 in
  exists provider,
    first.1 = Return provider /\
    _tushare_provider first.2 = Some provider /\
    second = (Return provider, first.2) /\
    (forall existing, _tushare_provider p = Some existing ->
       provider = existing /\ first.2 = p).
Proof.
  cbv zeta.
  destruct (get_tushare_provider_cases sur p)
    as (provider & events & -> & Hsome & _).
  exists provider. cbn [fst snd _tushare_provider]. split_and!; try done.
  intros existing He. destruct (Hsome existing He) as [-> ->].
  split; [done|]. rewrite app_nil_r. destruct p; cbn in *; by subst.
Qed.

(** X21: a process whose first call found no token stays without a
    connection: the first [get_china_stock_info_tushare] answers the
    placeholder, and so does every later call, and
    [get_china_stock_data_tushare] the empty table, even after the token
    has been set in the environment; no remote call is ever made and the
    environment is not read again. *)
Theorem late_token_is_never_seen (sur sur' sur'' : Surroundings) (env : Env)
    (symbol symbol' symbol'' : str) (start_date end_date : option str)
    (p : Process) :
  _tushare_provider p = None ->
  truthy (getenv sur "TUSHARE_TOKEN") = false ->
  let first := get_china_stock_info_tushare sur symbol p in
  let second := get_china_stock_info_tushare sur' symbol' first.2 in
  let third :=
    get_china_stock_data_tushare sur'' env symbol'' start_date end_date
                                 second.2 in
  first.1 = Return (unknown_info symbol) /\
  calls first.2 = calls p /\
  second = (Return (unknown_info symbol'), first.2) /\
  third.1 = Return empty_frame /\
  setup third.2 = setup first.2 /\
  api_calls (calls third.2) = api_calls (calls p).
Proof.
  intros Hg He. cbv zeta.
  destruct (get_tushare_provider_cases sur p)
    as (provider & events & Hrun & _ & Hnone).
  specialize (Hnone Hg).
  destruct (init_cases sur None true p)
    as (provider' & events' & Hinit & _ & _ & _ & _ & _ & _ & _ & H8).
  rewrite Hinit in Hnone. injection Hnone as <- Hev.
  destruct (H8 eq_refl He) as (Hc & _).
  assert (Hfirst : get_china_stock_info_tushare sur symbol p =
            (Return (unknown_info symbol),
             {| _tushare_provider := Some provider';
                setup := setup p ++ events; calls := calls p |})).
  { unfold get_china_stock_info_tushare. setup. rewrite Hrun.
    unfold get_stock_info. by rewrite Hc. }
  rewrite Hfirst. cbn [fst snd calls setup].
  assert (Hsecond : get_china_stock_info_tushare sur' symbol'
            {| _tushare_provider := Some provider';
               setup := setup p ++ events; calls := calls p |} =
            (Return (unknown_info symbol'),
             {| _tushare_provider := Some provider';
                setup := setup p ++ events; calls := calls p |})).
  { unfold get_china_stock_info_tushare, get_tushare_provider. setup.
    cbn [_tushare_provider]. unfold get_stock_info. by rewrite Hc. }
  rewrite Hsecond. cbn [fst snd calls setup]. split_and!; try done.
  all: unfold get_china_stock_data_tushare, get_tushare_provider; setup;
    cbn [_tushare_provider]; unfold get_stock_daily; rewrite Hc; done.
Qed.

Lemma late_token_is_never_seen_witness :
  (get_china_stock_info_tushare no_token "600000" initial_process).1 =
    Return (unknown_info "600000") /\
  (get_china_stock_info_tushare token_set "000001"
     (get_china_stock_info_tushare no_token "600000" initial_process).2).1 =
    Return (unknown_info "000001").
Proof.
  pose proof (late_token_is_never_seen no_token token_set token_set env
                "600000" "000001" "000001" None None initial_process
                eq_refl eq_refl) as (H1 & _ & H2 & _).
  split; [exact H1|]. cbv zeta in H2. by rewrite H2.
Defined.

(** With a token in the environment the same first call connects, and the
    share is looked up remotely. *)
Lemma constructor_connects :
  __init__ token_set None true initial_process =
    (Return (provider up_api),
     {| _tushare_provider := None;
        setup := [GetCache; Getenv "TUSHARE_TOKEN"; SetToken "0a1b2c3d"; ProApi];
        calls := initial_world |}) /\
  api_calls
    (calls (get_china_stock_info_tushare token_set "600000" initial_process).2)
    = [StockBasic "600000.SH" STOCK_BASIC_FIELDS].
Proof. split; vm_compute; reflexivity. Qed.

End ProviderSetup.

(** * The list of shares *)

Module StockList.
Import Tushare TushareFixtures TushareListing TushareExamples.
Import TushareOperations.

(** Unfolding the effects of the two operations. *)
Ltac list_run :=
  cbv [try_except mbind M_bind mret M_ret raise lift tell ask event
       TushareListing.logger].

(** [get_stock_list] returns a table. *)
Lemma get_stock_list_total (lst : Listing) (self : TushareProvider)
    (w : list ListEvent) :
  exists df, (get_stock_list lst self w).1 = Return df.
Proof.
  unfold get_stock_list, cached_stock_list.
  destruct (connected self), (api self) as [api|]; list_run;
    try (eexists; reflexivity).
  repeat (step; cbn [fst snd negb]); eexists; reflexivity.
Qed.

(** No event of the list is the one looked for. *)
Ltac absent HIn :=
  cbn [In] in HIn;
  repeat (destruct HIn as [HIn|HIn]; [discriminate HIn|]);
  contradiction.

(** The event looked for is one of the list. *)
Ltac found HIn :=
  cbn [In] in HIn;
  repeat (destruct HIn as [HIn|HIn];
          [first [discriminate HIn|injection HIn as <- <- <-]|]);
  [..|contradiction].

(** X22: [get_stock_list] never raises: it returns the empty table or a
    table that is not empty, which the cache held (as a table, or as a
    text that parsed) or which the remote API has just answered.  The only
    remote call it can make is the query for the listed shares of every
    exchange, and the only thing it can write to the cache is the table it
    returns, when that came from the remote API, under the key
    ["tushare_stock_list"]. *)
Theorem stock_list_is_best_effort (lst : Listing) (self : TushareProvider)
    (w : list ListEvent) :
  exists df events,
    get_stock_list lst self w = (Return df, w ++ events) /\
    (df = empty_frame \/
     empty df = false /\ connected self = true /\
     (from_cache lst df /\ enable_cache self = true \/ from_remote lst df)) /\
    (forall exchange list_status fields,
       In (StockList exchange list_status fields) events ->
       exchange = "" /\ list_status = "L" /\ fields = STOCK_LIST_FIELDS) /\
    (forall symbol data source,
       In (SaveList symbol data source) events ->
       symbol = "tushare_stock_list" /\ source = "tushare" /\ data = df /\
       from_remote lst df /\ enable_cache self = true).
Proof.
  unfold get_stock_list, cached_stock_list, from_cache, from_remote.
  destruct (connected self), (api self) as [api|]; list_run.
  2-4: do 2 eexists; (split; [reflexivity|]);
       (split; [by left|]); split; intros ? ? ? HIn; absent HIn.
  repeat (step; cbn [fst snd negb]).
  all: rewrite <- ?app_assoc; cbn [app].
  all: try rewrite <- (app_nil_r w) at 2.
  all: do 2 eexists; split; [reflexivity|].
  all: repeat match goal with H : negb _ = true |- _ => apply negb_true_iff in H end.
  all: split;
    [first [by left
           |right; split; [done|]; split; [done|];
            first [by right
                  |left; split; [|done]; eexists; split; [reflexivity|];
                   first [by left|right; eexists; by split]]]|].
  all: split; intros ? ? ? HIn; first [absent HIn|found HIn; by split_and!].
Qed.

(** X23: when the cache holds a list of shares that is not empty,
    [get_stock_list] returns it after the two cache reads and does nothing
    else: no remote call is made and nothing is written. *)
Theorem cached_list_spares_the_remote_call (lst : Listing)
    (self : TushareProvider) (api : TushareApi) (cm : CacheManager)
    (cache_key : str) (cached_data : DataFrame) (w : list ListEvent) :
  connected self = true -> Tushare.api self = Some api ->
  enable_cache self = true -> cache_manager self = Some cm ->
  find_cached_stock_data lst "tushare_stock_list" 24 = Return (Some cache_key) ->
  cache_key <> [] ->
  load_stock_data lst cache_key = Return (Table cached_data) ->
  empty cached_data = false ->
  get_stock_list lst self w =
    (Return cached_data,
     w ++ [FindCached "tushare_stock_list" 24; LoadCached cache_key]).
Proof.
  intros Hc Ha He Hm Hf Hk Hl Hn.
  unfold get_stock_list, cached_stock_list. rewrite Hc, Ha, He, Hm. list_run.
  rewrite Hf. destruct cache_key as [|c k]; [done|]. rewrite Hl, Hn.
  cbn [negb fst snd]. by rewrite <- app_assoc.
Qed.

Lemma cached_list_spares_the_remote_call_witness :
  get_stock_list warm (provider up_api) [] =
    (Return shares,
     [FindCached "tushare_stock_list" 24; LoadCached "stock_list.pkl"]).
Proof.
  exact (cached_list_spares_the_remote_call warm (provider up_api) up_api
           broken_cache "stock_list.pkl" shares [] eq_refl eq_refl eq_refl
           eq_refl eq_refl ltac:(discriminate) eq_refl eq_refl).
Defined.

(** X24: a cache that cannot be read costs the list: when the lookup of
    the cached list or its loading raises, [get_stock_list] logs the error
    and returns the empty table without asking the remote API. *)
Theorem cache_read_failure_loses_the_list (lst : Listing)
    (self : TushareProvider) (api : TushareApi) (cm : CacheManager) (e : exn)
    (w : list ListEvent) :
  connected self = true -> Tushare.api self = Some api ->
  enable_cache self = true -> cache_manager self = Some cm ->
  find_cached_stock_data lst "tushare_stock_list" 24 = Raise e \/
  (exists cache_key,
     find_cached_stock_data lst "tushare_stock_list" 24 = Return (Some cache_key) /\
     cache_key <> [] /\ load_stock_data lst cache_key = Raise e) ->
  exists events,
    get_stock_list lst self w =
      (Return empty_frame, w ++ events ++ [Logged (ListFailed e)]) /\
    forall exchange list_status fields,
      ~ In (StockList exchange list_status fields) events.
Proof.
  intros Hc Ha He Hm Hfail.
  unfold get_stock_list, cached_stock_list. rewrite Hc, Ha, He, Hm. list_run.
  destruct Hfail as [Hf|(cache_key & Hf & Hk & Hl)]; rewrite Hf.
  - exists [FindCached "tushare_stock_list" 24]. cbn [fst snd].
    rewrite <- app_assoc. split; [done|]. intros ? ? ? [?|[]]; done.
  - destruct cache_key as [|c k]; [done|]. rewrite Hl. cbn [fst snd].
    exists [FindCached "tushare_stock_list" 24; LoadCached (c :: k)].
    rewrite <- !app_assoc. split; [done|]. intros ? ? ? [?|[?|[]]]; done.
Qed.

Lemma cache_read_failure_loses_the_list_witness :
  (get_stock_list torn (provider up_api) []).1 = Return empty_frame /\
  last (get_stock_list torn (provider up_api) []).2 =
    Some (Logged (ListFailed DiskError)).
Proof.
  destruct (cache_read_failure_loses_the_list torn (provider up_api) up_api
              broken_cache DiskError [] eq_refl eq_refl eq_refl eq_refl
              (or_introl eq_refl)) as (events & Hrun & _).
  rewrite Hrun. split; [done|]. cbn [snd app]. by rewrite last_app.
Defined.

(** X25: on a cache miss [get_stock_list] asks the remote API for the
    listed shares of every exchange, returns the table it answers, and
    writes that table to the cache under ["tushare_stock_list"]; a write
    that raises costs one error line and nothing else. *)
Theorem cache_write_failure_keeps_the_list (lst : Listing)
    (self : TushareProvider) (api : TushareApi) (cm : CacheManager)
    (stock_list : DataFrame) (w : list ListEvent) :
  connected self = true -> Tushare.api self = Some api ->
  enable_cache self = true -> cache_manager self = Some cm ->
  find_cached_stock_data lst "tushare_stock_list" 24 = Return None ->
  stock_basic_list lst "" "L" STOCK_LIST_FIELDS = Return (Some stock_list) ->
  empty stock_list = false ->
  get_stock_list lst self w =
    (Return stock_list,
     w ++ [FindCached "tushare_stock_list" 24;
           StockList "" "L" STOCK_LIST_FIELDS;
           SaveList "tushare_stock_list" stock_list "tushare"] ++
          match save_stock_data cm "tushare_stock_list" stock_list "tushare" with
          | Return _ => []
          | Raise e => [Logged (ListSaveFailed e)]
          end).
Proof.
  intros Hc Ha He Hm Hf Hr Hn.
  unfold get_stock_list, cached_stock_list. rewrite Hc, Ha, He, Hm. list_run.
  rewrite Hf. cbn [fst snd]. rewrite Hr, Hn. cbn [negb fst snd].
  destruct (save_stock_data cm "tushare_stock_list" stock_list "tushare");
    cbn [fst snd]; by rewrite <- !app_assoc.
Qed.

Lemma cache_write_failure_keeps_the_list_witness :
  get_stock_list cold (provider up_api) [] =
    (Return shares,
     [FindCached "tushare_stock_list" 24;
      StockList "" "L" STOCK_LIST_FIELDS;
      SaveList "tushare_stock_list" shares "tushare";
      Logged (ListSaveFailed DiskError)]).
Proof.
  exact (cache_write_failure_keeps_the_list cold (provider up_api) up_api
           broken_cache shares [] eq_refl eq_refl eq_refl eq_refl eq_refl
           eq_refl eq_refl).
Defined.

(** A cached text is stripped before it is looked at, and parsed as it
    was stored. *)
Lemma cached_text_is_parsed :
  strip [32; 9; 91; 49; 93; 10; 12288]%N = "[1]" /\
  get_stock_list
    {| find_cached_stock_data := fun _ _ => Return (Some "stock_list.txt");
       load_stock_data := fun _ => Return (Text [32; 91; 93; 10]%N);
       stock_basic_list := fun _ _ _ => Raise RemoteError;
       frame_of_json := fun _ => Return shares;
       str_contains := fun _ _ _ => Return [] |}
    (provider up_api) [] =
    (Return shares,
     [FindCached "tushare_stock_list" 24; LoadCached "stock_list.txt";
      ParseJson [32; 91; 93; 10]%N]).
Proof. split; vm_compute; reflexivity. Qed.

(** The rows that a mask selects are rows of the table, in their order. *)
Lemma select_sublist (df : DataFrame) (mask : list bool) :
  sublist (rows (select df mask)) (rows df).
Proof.
  unfold select. cbn [rows]. generalize (rows df). clear df.
  induction mask as [|b mask IH]; intros [|row rest]; cbn;
    try apply sublist_nil_l.
  destruct b; cbn; [by apply sublist_skip|by apply sublist_cons].
Qed.

(** The rows selected by the disjunction of three masks of the table's
    length. *)
Lemma select_any (table : list (list value)) (m1 m2 m3 : list bool)
    (row : list value) :
  length m1 = length table -> length m2 = length table ->
  length m3 = length table ->
  In row (map snd (List.filter fst
            (zip (zip_with orb (zip_with orb m1 m2) m3) table))) <->
  exists i,
    table !! i = Some row /\
    (m1 !! i = Some true \/ m2 !! i = Some true \/ m3 !! i = Some true).
Proof.
  revert m1 m2 m3.
  induction table as [|first rest IH]; intros [|b1 m1] [|b2 m2] [|b3 m3];
    cbn [length]; try lia; intros H1 H2 H3.
  - cbn. split; [done|]. by intros (i & ? & _).
  - cbn [zip_with zip List.filter fst].
    specialize (IH m1 m2 m3 ltac:(lia) ltac:(lia) ltac:(lia)).
    destruct (b1 || b2 || b3) eqn:Hb; cbn [map snd In]; rewrite IH; split.
    + intros [<-|(i & Hi & Hm)].
      * exists 0. split; [done|]. cbn.
        destruct b1, b2, b3; cbn in Hb; try done; tauto.
      * exists (S i). by split.
    + intros ([|i] & Hi & Hm); cbn in Hi, Hm.
      * left. by injection Hi.
      * right. by exists i.
    + intros (i & Hi & Hm). exists (S i). by split.
    + intros ([|i] & Hi & Hm); cbn in Hi, Hm.
      * destruct b1, b2, b3; cbn in Hb; try done.
        destruct Hm as [?|[?|?]]; done.
      * by exists i.
Qed.

(** X26: [search_stocks] never raises, and what it returns is taken from
    the list of shares: its rows are rows of the list, in their order, under
    the list's columns.  An empty list gives the empty table without any
    matching; a match that raises (a missing column, a keyword that is no
    regular expression) gives the empty table; and when the three matches
    answer, a row is returned exactly when the keyword matches its name,
    its symbol or its code. *)
Theorem search_stocks_selects (lst : Listing) (self : TushareProvider)
    (keyword : str) (w : list ListEvent) :
  exists stock_list results,
    (get_stock_list lst self w).1 = Return stock_list /\
    (search_stocks lst self keyword w).1 = Return results /\
    (results = empty_frame \/
     columns results = columns stock_list) /\
    sublist (rows results) (rows stock_list) /\
    (empty stock_list = true ->
     search_stocks lst self keyword w =
       (Return empty_frame, (get_stock_list lst self w).2)) /\
    (forall e,
       str_contains lst stock_list "name" keyword = Raise e \/
       str_contains lst stock_list "symbol" keyword = Raise e \/
       str_contains lst stock_list "ts_code" keyword = Raise e ->
       results = empty_frame) /\
    (forall by_name by_symbol by_code,
       empty stock_list = false ->
       str_contains lst stock_list "name" keyword = Return by_name ->
       str_contains lst stock_list "symbol" keyword = Return by_symbol ->
       str_contains lst stock_list "ts_code" keyword = Return by_code ->
       length by_name = length (rows stock_list) ->
       length by_symbol = length (rows stock_list) ->
       length by_code = length (rows stock_list) ->
       columns results = columns stock_list /\
       forall row,
         In row (rows results) <->
         exists i,
           rows stock_list !! i = Some row /\
           (by_name !! i = Some true \/ by_symbol !! i = Some true \/
            by_code !! i = Some true)).
Proof.
  destruct (get_stock_list_total lst self w) as (stock_list & Hl).
  exists stock_list. unfold search_stocks. list_run.
  destruct (get_stock_list lst self w) as [o w'] eqn:Hrun. cbn [fst] in Hl.
  subst o. cbn [fst snd].
  destruct (empty stock_list) eqn:He.
  - exists empty_frame. cbn [fst snd rows columns empty_frame].
    split_and!; try done; [by left|apply sublist_nil_l].
  - destruct (str_contains lst stock_list "name" keyword) as [m1|e1] eqn:H1;
      cbn [fst snd];
      [destruct (str_contains lst stock_list "symbol" keyword) as [m2|e2] eqn:H2;
       cbn [fst snd];
       [destruct (str_contains lst stock_list "ts_code" keyword) as [m3|e3] eqn:H3;
        cbn [fst snd]|]|].
    + eexists. split_and!; try done.
      * by right.
      * apply select_sublist.
      * intros e [?|[?|?]]; done.
      * intros ? ? ? _ [= <-] [= <-] [= <-] L1 L2 L3. split; [done|].
        intros row. by apply select_any.
    + exists empty_frame. cbn [rows columns empty_frame].
      split_and!; try done; [by left|apply sublist_nil_l].
    + exists empty_frame. cbn [rows columns empty_frame].
      split_and!; try done; [by left|apply sublist_nil_l].
    + exists empty_frame. cbn [rows columns empty_frame].
      split_and!; try done; [by left|apply sublist_nil_l].
Qed.

End StockList.

(** * Making the chat adapter *)

Module AdapterSetup.
Import DeepSeek DeepSeekFixtures DeepSeekSetup.

(** Unfolding the effects of the constructor. *)
Ltac adapter_setup :=
  cbv [try_except mbind M_bind mret M_ret raise lift tell ask event].

(** X27: [ChatDeepSeek.__init__] looks for a key only when none is passed:
    without an [api_key] argument it reads [DEEPSEEK_API_KEY] and raises a
    [ValueError] before the parent constructor is called when that is not
    set or empty; an [api_key] that is passed is never checked, the
    environment is not read, and an empty one reaches the parent
    constructor as [None].  The parent constructor gets the model, the
    base URL, the temperature and the other keywords as they came, and
    [max_tokens] under the name [max_completion_tokens]; what it raises is
    raised, and otherwise the adapter carries the model as its
    [model_name]. *)
Theorem adapter_key_is_checked_when_absent (sur : Surroundings) (model : str)
    (api_key : option str) (base_url : str) (temperature : Q)
    (max_tokens : option Z) (kwargs : gmap str pyobj) (w : list SetupEvent) :
  let run := __init__ sur model api_key base_url temperature max_tokens kwargs w in
  let arguments key :=
    {| DeepSeekSetup.model := model;
       api_key := match key with [] => None | _ => Some key end;
       base_url := base_url; temperature := temperature;
       max_completion_tokens := max_tokens; kwargs := kwargs |} in
  let made key :=
    match parent_init sur (arguments key) with
    | Return _ => Return {| model_name := model |}
    | Raise e => Raise e
    end in
  (api_key = None -> truthy (getenv sur "DEEPSEEK_API_KEY") = false ->
   run = (Raise (Exn "ValueError" KEY_NOT_FOUND),
          w ++ [Getenv "DEEPSEEK_API_KEY"])) /\
  (forall key,
     api_key = None -> getenv sur "DEEPSEEK_API_KEY" = Some key -> key <> [] ->
     run = (made key,
            w ++ [Getenv "DEEPSEEK_API_KEY"; ParentInit (arguments key)])) /\
  (forall key,
     api_key = Some key ->
     run = (made key, w ++ [ParentInit (arguments key)])).
Proof.
  cbv zeta. unfold __init__. split_and!.
  - intros -> He. adapter_setup. by rewrite He.
  - intros [|c key] -> He Hk; [done|]. adapter_setup. rewrite He. cbn [truthy negb].
    destruct (parent_init sur _) as [[]|e]; cbn [fst snd];
      by rewrite <- app_assoc.
  - intros [|c key] ->; adapter_setup; cbn [truthy];
      by destruct (parent_init sur _) as [[]|e].
Qed.

(** An adapter made with its key in the environment. *)
Lemma adapter_is_made :
  __init__ {| getenv := fun _ => Some "sk-0000";
              parent_init := fun _ => Return tt |}
           "deepseek-chat" None "https://api.deepseek.com" (1 # 10)
           (Some 512%Z) ∅ [] =
    (Return deepseek,
     [Getenv "DEEPSEEK_API_KEY";
      ParentInit {| model := "deepseek-chat"; api_key := Some "sk-0000";
                    base_url := "https://api.deepseek.com";
                    temperature := 1 # 10;
                    max_completion_tokens := Some 512%Z; kwargs := ∅ |}]).
Proof. reflexivity. Qed.

End AdapterSetup.

(** * The DeepSeek V3 adapter *)

Module DeepSeekV3Adapter.
Import DeepSeek DeepSeekFixtures DeepSeekV3 DeepSeekExamples.

(** Unfolding the effects of the adapter. *)
Ltac v3 :=
  cbv [try_except mbind M_bind mret M_ret raise lift tell ask event logger
       _init_llm].

(** The constructor, by what it is given and finds. *)
Lemma v3_init_cases (sur : Surroundings) (api_key : option str) (model : str)
    (temperature : Q) (max_tokens : option Z) (base_url : option str)
    (w : list Event) :
  let run := __init__ sur api_key model temperature max_tokens base_url w in
  let key := if truthy api_key then api_key
             else getenv sur "DEEPSEEK_API_KEY" in
  let url := if truthy base_url then default [] base_url
             else default BASE_URL (getenv sur "DEEPSEEK_BASE_URL") in
  let reads :=
    (if truthy api_key then [] else [Getenv "DEEPSEEK_API_KEY"]) ++
    (if truthy base_url then [] else [Getenv "DEEPSEEK_BASE_URL"]) in
  let arguments :=
    {| llm_model := "deepseek-chat"; llm_api_key := key; llm_base_url := url;
       llm_temperature := temperature; streaming := false |} in
  if truthy key then
    match new_llm sur arguments with
    | Return llm =>
        run = (Return {| api_key := key; model_name := model;
                         temperature := temperature; max_tokens := max_tokens;
                         base_url := url; model := "deepseek-chat";
                         llm := llm |},
               w ++ reads ++ [NewLlm arguments])
    | Raise e =>
        run = (Raise e, w ++ reads ++ [NewLlm arguments; Logged (InitFailed e)])
    end
  else run = (Raise (Exn "ValueError" KEY_NEEDED), w ++ reads).
Proof.
  cbv zeta. unfold __init__.
  assert (Hm : default "deepseek-chat" (SUPPORTED_MODELS !! model)
               = "deepseek-chat").
  { unfold SUPPORTED_MODELS.
    destruct (decide (model = "deepseek-chat")) as [->|Hne].
    - by rewrite lookup_singleton_eq.
    - by rewrite lookup_singleton_ne. }
  rewrite Hm.
  destruct api_key as [[|c k]|]; cbn [truthy]; v3; cbn [fst snd].
  all: destruct base_url as [[|c' u]|]; cbn [truthy default from_option id];
    cbn [fst snd].
  all: try (destruct (getenv sur "DEEPSEEK_API_KEY") as [[|c'' k']|] eqn:Hk);
    cbn [truthy negb]; cbn [fst snd].
  all: rewrite <- ?app_assoc; cbn [app]; try done.
  all: destruct (new_llm sur _) as [made|e]; cbn [fst snd];
    rewrite <- ?app_assoc; done.
Qed.

(** The environment variables that the constructor reads. *)
Lemma v3_reads (api_key base_url : option str) (tail : list Event) :
  (forall name, ~ In (Getenv name) tail) ->
  let events :=
    ((if truthy api_key then [] else [Getenv "DEEPSEEK_API_KEY"]) ++
     (if truthy base_url then [] else [Getenv "DEEPSEEK_BASE_URL"])) ++ tail in
  (In (Getenv "DEEPSEEK_API_KEY") events <-> truthy api_key = false) /\
  (In (Getenv "DEEPSEEK_BASE_URL") events <-> truthy base_url = false).
Proof.
  intros Ht. cbv zeta.
  destruct (truthy api_key), (truthy base_url); cbn [app In];
    split; split; try done; try tauto.
  all: try (intros [?|?]; [done|by destruct (Ht _ ltac:(eassumption))]).
  all: try (intros [?|[?|?]]; try done; by destruct (Ht _ ltac:(eassumption))).
  all: try (intros ?; by destruct (Ht _ ltac:(eassumption))).
Qed.

(** X28: how a [DeepSeekAdapter] is made.  A key or a base URL that is
    passed and not empty is taken and the environment is not read for it;
    otherwise [DEEPSEEK_API_KEY] or [DEEPSEEK_BASE_URL] is read, and a base
    URL variable that is set to the empty text gives the empty base URL,
    not the default.  Without a key the constructor raises a [ValueError]
    and makes no [ChatOpenAI].  An adapter that is made talks to the model
    ["deepseek-chat"] whatever model was asked for, which it keeps as its
    [model_name]; it was made without streaming, with the key and the base
    URL found; and [get_model_info] reports a context of ["128K"]. *)
Theorem v3_adapter_construction (sur : Surroundings) (api_key : option str)
    (requested : str) (temperature : Q) (max_tokens : option Z)
    (base_url : option str) (w : list Event) :
  let run := __init__ sur api_key requested temperature max_tokens base_url w in
  let key := if truthy api_key then api_key
             else getenv sur "DEEPSEEK_API_KEY" in
  let url := if truthy base_url then default [] base_url
             else default BASE_URL (getenv sur "DEEPSEEK_BASE_URL") in
  exists events,
    run.2 = w ++ events /\
    (In (Getenv "DEEPSEEK_API_KEY") events <-> truthy api_key = false) /\
    (In (Getenv "DEEPSEEK_BASE_URL") events <-> truthy base_url = false) /\
    (truthy base_url = false -> getenv sur "DEEPSEEK_BASE_URL" = Some [] ->
       url = []) /\
    (truthy key = false ->
       run.1 = Raise (Exn "ValueError" KEY_NEEDED) /\
       forall arguments, ~ In (NewLlm arguments) events) /\
    (forall self, run.1 = Return self ->
       truthy key = true /\
       DeepSeekV3.api_key self = key /\ DeepSeekV3.base_url self = url /\
       model self = "deepseek-chat" /\ model_name self = requested /\
       DeepSeekV3.max_tokens self = max_tokens /\
       (exists arguments,
          last events = Some (NewLlm arguments) /\
          new_llm sur arguments = Return (llm self) /\
          llm_model arguments = "deepseek-chat" /\
          llm_api_key arguments = key /\ llm_base_url arguments = url /\
          streaming arguments = false) /\
       get_model_info self !! "model" = Some (IStr "deepseek-chat") /\
       get_model_info self !! "model_name" = Some (IStr requested) /\
       get_model_info self !! "context_length" = Some (IStr "128K")).
Proof.
  cbv zeta.
  pose proof (v3_init_cases sur api_key requested temperature max_tokens
                base_url w) as H. cbv zeta in H.
  set (key := if truthy api_key then api_key
              else getenv sur "DEEPSEEK_API_KEY") in *.
  set (url := if truthy base_url then default [] base_url
              else default BASE_URL (getenv sur "DEEPSEEK_BASE_URL")) in *.
  assert (Hurl : truthy base_url = false ->
                 getenv sur "DEEPSEEK_BASE_URL" = Some [] -> url = []).
  { intros Hb He. subst url. by rewrite Hb, He. }
  destruct (truthy key) eqn:Hk.
  - destruct (new_llm sur _) as [made|e] eqn:Hl; rewrite H; cbn [fst snd].
    + eexists. rewrite app_assoc. split; [by rewrite <- app_assoc|].
      destruct (v3_reads api_key base_url
                  [NewLlm {| llm_model := "deepseek-chat";
                             llm_api_key := key; llm_base_url := url;
                             llm_temperature := temperature;
                             streaming := false |}]) as [H1 H2].
      { intros name [?|[]]. done. }
      split_and!; try done. intros self [= <-].
      cbn [model model_name DeepSeekV3.api_key llm DeepSeekV3.base_url
           DeepSeekV3.max_tokens].
      split_and!; try done.
      eexists. split_and!; [by rewrite last_app|exact Hl|done..].
    + eexists. rewrite (app_assoc _ _ [_; _]).
      split; [by rewrite <- app_assoc|].
      destruct (v3_reads api_key base_url
                  [NewLlm {| llm_model := "deepseek-chat";
                             llm_api_key := key; llm_base_url := url;
                             llm_temperature := temperature;
                             streaming := false |};
                   Logged (InitFailed e)]) as [H1 H2].
      { intros name [?|[?|[]]]; done. }
      split_and!; done.
  - rewrite H. cbn [fst snd]. eexists. split; [reflexivity|].
    destruct (v3_reads api_key base_url []) as [H1 H2]; [by intros name []|].
    rewrite app_nil_r in H1, H2. split_and!; try done.
    intros _. split; [done|]. intros arguments HIn.
    destruct (truthy api_key), (truthy base_url); cbn in HIn;
      intuition discriminate.
Qed.

(** An adapter asked for another model, with its key passed and its base
    URL set to the empty text in the environment. *)
Lemma v3_adapter_is_made :
  (__init__ {| getenv := fun _ => Some ""; new_llm := fun _ => Return two_pieces;
               py_str := text_of |}
            (Some "sk-0000") "deepseek-coder" (1 # 10) (Some 2000%Z) None []).1 =
    Return {| api_key := Some "sk-0000"; model_name := "deepseek-coder";
              temperature := 1 # 10; max_tokens := Some 2000%Z;
              base_url := ""; model := "deepseek-chat"; llm := two_pieces |}.
Proof. vm_compute. reflexivity. Qed.

(** [chat], by what the model answers. *)
Lemma chat_cases (sur : Surroundings) (self : DeepSeekAdapter)
    (messages : list BaseMessage) (kwargs : gmap str pyobj) (w : list Event) :
  let forwarded :=
    match kwargs !! "max_tokens", max_tokens self with
    | None, Some max_tokens => <["max_tokens" := PInt max_tokens]> kwargs
    | _, _ => kwargs
    end in
  chat sur self messages kwargs w =
    match llm_invoke (llm self) messages forwarded with
    | Return content =>
        (Return match content with
                | PStr content => content
                | PList content => concat (map (py_str sur) content)
                | _ => py_str sur content
                end,
         w ++ [Invoke messages forwarded])
    | Raise e =>
        (Raise e, w ++ [Invoke messages forwarded; Logged (ChatFailed e)])
    end.
Proof.
  cbv zeta. unfold chat. v3.
  destruct (llm_invoke _ _ _) as [[]|e]; cbn [fst snd];
    rewrite <- ?app_assoc; done.
Qed.

(** X29: [chat] calls the model once, with the caller's keyword arguments;
    a [max_tokens] of the caller is kept, and when the caller gives none
    the adapter's own is added, if it has one.  A text that the model
    answers is returned as it is, a list is returned as the concatenation
    of the string forms of its items, without any separator; an exception
    of the model is logged and raised again. *)
Theorem chat_forwards_and_flattens (sur : Surroundings) (self : DeepSeekAdapter)
    (messages : list BaseMessage) (kwargs : gmap str pyobj) (w : list Event) :
  exists forwarded : gmap str pyobj,
    (forall key : str, key <> "max_tokens" ->
       forwarded !! key = kwargs !! key) /\
    (forall given, kwargs !! ("max_tokens" : str) = Some given ->
       forwarded = kwargs) /\
    (kwargs !! ("max_tokens" : str) = None ->
       forwarded !! ("max_tokens" : str) = PInt <$> max_tokens self) /\
    let answer := llm_invoke (llm self) messages forwarded in
    let run := chat sur self messages kwargs w in
    (forall content, answer = Return content ->
       run.2 = w ++ [Invoke messages forwarded]) /\
    (forall text, answer = Return (PStr text) -> run.1 = Return text) /\
    (forall items, answer = Return (PList items) ->
       run.1 = Return (concat (map (py_str sur) items))) /\
    (forall e, answer = Raise e ->
       run = (Raise e, w ++ [Invoke messages forwarded; Logged (ChatFailed e)])).
Proof.
  rewrite chat_cases. cbv zeta.
  set (forwarded := match kwargs !! "max_tokens", max_tokens self with
                    | None, Some m => <["max_tokens" := PInt m]> kwargs
                    | _, _ => kwargs
                    end).
  exists forwarded. split_and!.
  - intros key Hk. subst forwarded.
    destruct (kwargs !! "max_tokens"), (max_tokens self); try done.
    by rewrite lookup_insert_ne.
  - intros given Hg. subst forwarded. unfold str, char in *. by rewrite Hg.
  - intros Hn. subst forwarded. unfold str, char in *. rewrite Hn.
    destruct (max_tokens self); cbn; [by rewrite lookup_insert_eq|done].
  - by intros content ->.
  - by intros text ->.
  - by intros items ->.
  - by intros e ->.
Qed.

(** The adapter's own [max_tokens] is added, and the two pieces of the
    answer come back as one text. *)
Lemma chat_example :
  chat v3_surroundings v3_adapter [Human "600000?"] ∅ [] =
    (Return "Hold.",
     [Invoke [Human "600000?"] {[ "max_tokens" := PInt 2000 ]}]).
Proof. vm_compute. reflexivity. Qed.

(** X30: [test_connection] never raises: it answers [True] exactly when
    [chat], asked with the one test message and no keyword argument,
    returns a text that is not empty, and [False] when [chat] raises,
    which it logs. *)
Theorem test_connection_never_raises (sur : Surroundings)
    (self : DeepSeekAdapter) (w : list Event) :
  let run := test_connection sur self w in
  let reply := (chat sur self [Human "Hello, this is a test."] ∅ w).1 in
  exists ok,
    run.1 = Return ok /\
    (ok = true <-> exists text, reply = Return text /\ text <> []) /\
    (forall e, reply = Raise e ->
       ok = false /\ last run.2 = Some (Logged (ConnectionTestFailed e))).
Proof.
  cbv zeta. unfold test_connection.
  cbv [try_except mbind M_bind mret M_ret].
  destruct (chat sur self [Human "Hello, this is a test."] ∅ w)
    as [[text|e] w'] eqn:Hc; cbn [fst snd].
  - exists (match text with _ :: _ => true | [] => false end).
    split_and!; [done| |done].
    destruct text; split; try done.
    + by intros (? & [= <-] & ?).
    + intros _. by eexists.
  - exists false. v3. cbn [fst snd]. split_and!; [done| |].
    + split; [done|]. by intros (? & ? & _).
    + intros e' [= <-]. split; [done|]. by rewrite last_app.
Qed.

End DeepSeekV3Adapter.
